(** * check_env_ymls_conda_present.py: pinned packages against an image

    A shallow embedding of [.github/scripts/check_env_ymls_conda_present.py]
    and the properties of its three parts: the pin parser
    ([parse_conda_export]), the image inspector ([docker_conda_list_json])
    and the comparator and reporter ([main]).

    Text is modelled as [string], read as a sequence of code points below
    256 (the Latin-1 block of Unicode); on that block the Python string
    methods used by the script are written out in module [PyStr].  Sets
    of names are [gset string], dictionaries with string keys are
    [gmap string _]. *)

From Stdlib Require Import ZArith NArith Ascii String.
From Stdlib Require Import Floats.SpecFloat.
From stdpp Require Import base option list strings gmap sets sorting pretty.

(** ** Python string methods on code points below 256 *)

Module PyStr.

Definition code (c : ascii) : N := N_of_ascii c.

(** [str.isspace] on one character: TAB, LF, VT, FF, CR, the separators
    FS, GS, RS, US, the space, NEL (0x85) and the no-break space (0xA0). *)
Definition isspace (c : ascii) : bool :=
  let n := code c in
  ((9 <=? n) && (n <=? 13) || (28 <=? n) && (n <=? 32)
   || (n =? 133) || (n =? 160))%N.

(** The line boundaries of [str.splitlines]: LF, VT, FF, CR, FS, GS, RS
    and NEL (CR LF counts as one boundary, see [splitlines_go]). *)
Definition islinebreak (c : ascii) : bool :=
  let n := code c in
  ((10 <=? n) && (n <=? 13) || (28 <=? n) && (n <=? 30) || (n =? 133))%N.

(** [str.lower] on one character: A-Z, and the capital letters of the
    Latin-1 supplement (0xC0-0xDE without the multiplication sign 0xD7),
    move up by 32. *)
Definition lower_char (c : ascii) : ascii :=
  let n := code c in
  if ((65 <=? n) && (n <=? 90)
      || (192 <=? n) && (n <=? 222) && negb (n =? 215))%N
  then ascii_of_N (n + 32) else c.

Fixpoint map (f : ascii → ascii) (s : string) : string :=
  match s with
  | EmptyString => EmptyString
  | String c s' => String (f c) (map f s')
  end.

Definition lower (s : string) : string := map lower_char s.

(** [s.replace(old, new)] for one-character [old] and [new]. *)
Definition replace (old new : ascii) (s : string) : string :=
  map (λ c, if Ascii.eqb c old then new else c) s.

Fixpoint lstrip (s : string) : string :=
  match s with
  | EmptyString => EmptyString
  | String c s' => if isspace c then lstrip s' else s
  end.

Fixpoint rstrip (s : string) : string :=
  match s with
  | EmptyString => EmptyString
  | String c s' =>
      match rstrip s' with
      | EmptyString => if isspace c then EmptyString else String c EmptyString
      | r => String c r
      end
  end.

Definition strip (s : string) : string := rstrip (lstrip s).

(** [s.startswith(c)] for a one-character prefix. *)
Definition startswith (s : string) (c : ascii) : bool :=
  match s with
  | EmptyString => false
  | String d _ => Ascii.eqb d c
  end.

(** [s.split(sep, 1)[0]] for a one-character [sep]: what stands before
    the first [sep], the whole of [s] when there is none. *)
Fixpoint split_head (sep : ascii) (s : string) : string :=
  match s with
  | EmptyString => EmptyString
  | String c s' => if Ascii.eqb c sep then EmptyString
                   else String c (split_head sep s')
  end.

(** [str.splitlines]: [cur] holds the characters of the line being read,
    last one first.  A line break ends the line; no empty last line is
    produced when the text ends in a line break. *)
Fixpoint splitlines_go (cur : string) (s : string) : list string :=
  match s with
  | EmptyString =>
      match cur with EmptyString => [] | _ => [String.rev cur] end
  | String c s' =>
      if islinebreak c then
        String.rev cur ::
          (if Ascii.eqb c "013"%char then
             match s' with
             | String d s'' =>
                 if Ascii.eqb d "010"%char then splitlines_go EmptyString s''
                 else splitlines_go EmptyString s'
             | EmptyString => splitlines_go EmptyString s'
             end
           else splitlines_go EmptyString s')
      else splitlines_go (String c cur) s'
  end.

Definition splitlines (s : string) : list string :=
  splitlines_go EmptyString s.

End PyStr.

(** ** The script *)

(** [name.strip().lower().replace("_", "-")] *)
Definition normalize (name : string) : string :=
  PyStr.replace "_"%char "-"%char (PyStr.lower (PyStr.strip name)).

(** The body of the loop of [parse_conda_export] for one raw line. *)
Definition parse_line (req : gset string) (raw : string) : gset string :=
  let line := PyStr.strip raw in
  if decide (line = "") then req
  else if PyStr.startswith line "#"%char then req
  else
    let name := PyStr.strip (PyStr.split_head "="%char line) in
    if decide (name = "") then req
    else req ∪ {[ normalize name ]}.

Definition parse_lines (lines : list string) : gset string :=
  foldl parse_line ∅ lines.

(** *** The outside world, events and exceptions *)

(** What a path of the file system holds: nothing, a file that
    [read_text] can read (its text, decoded), or something that exists
    but cannot be read as a file (a directory, a file without read
    permission). *)
Inductive fs_entry :=
  | NoEntry
  | RegularFile (text : string)
  | Unreadable.

(** How the process of [subprocess.check_output] ends: it ran and exited
    with a return code and the captured output (stdout and stderr
    together, decoded as text); it ran and exited, but the captured bytes
    cannot be decoded as text; or it could not be started at all. *)
Inductive proc_outcome :=
  | Exited (returncode : Z) (output : string)
  | ExitedUndecodable (returncode : Z)
  | SpawnFailed.

Record world := World {
  fs : string → fs_entry;
  run_process : list string → proc_outcome
}.

Inductive stream := Stdout | Stderr.

(** What a run does that can be observed: a [print] to one of the two
    streams, and a call of [subprocess.check_output]. *)
Inductive event :=
  | Print (to : stream) (text : string)
  | Exec (cmd : list string).

Inductive exn :=
  | CalledProcessError (returncode : Z) (cmd : list string) (output : string)
  | JSONDecodeError
  | UnicodeDecodeError
  | TypeError
  | AttributeError
  | OSError.

(** A computation raises or returns, and leaves a trace of events. *)
Definition io (A : Type) : Type := (exn + A) * list event.

Definition ret {A} (a : A) : io A := (inr a, []).
Definition raise {A} (e : exn) : io A := (inl e, []).
Definition print (to : stream) (text : string) : io unit :=
  (inr tt, [Print to text]).

Definition bind {A B} (m : io A) (k : A → io B) : io B :=
  match m with
  | (inl e, t) => (inl e, t)
  | (inr a, t) => let '(r, t') := k a in (r, t ++ t')
  end.

(** [try: m except ...: h]: [h e] is the handler's body when the
    exception [e] matches the [except] clause. *)
Definition try_except {A} (m : io A) (h : exn → option (io A)) : io A :=
  match m with
  | (inl e, t) =>
      match h e with
      | Some k => let '(r, t') := k in (r, t ++ t')
      | None => (inl e, t)
      end
  | (inr a, t) => (inr a, t)
  end.

(** A pure step that may raise. *)
Definition lift {A} (r : exn + A) : io A := (r, []).

Notation "'let!' x := m 'in' k" := (bind m (λ x, k))
  (at level 10, x name, m at level 100, k at level 200,
   format "'[v' 'let!'  x  :=  m  'in' '/' k ']'").
Notation "m >>> k" := (bind m (λ _, k))
  (at level 65, right associativity).

Fixpoint for_each {A} (l : list A) (body : A → io unit) : io unit :=
  match l with
  | [] => ret tt
  | x :: l' => body x >>> for_each l' body
  end.

(** [Path.exists] and [Path.read_text]. *)
Definition path_exists (w : world) (path : string) : bool :=
  match fs w path with NoEntry => false | _ => true end.

Definition read_text (w : world) (path : string) : io string :=
  match fs w path with
  | RegularFile text => ret text
  | _ => raise OSError
  end.

(** [subprocess.check_output(cmd, stderr=subprocess.STDOUT, text=True)].
    With [text=True] the captured bytes are decoded while the output is
    collected, before the return code is looked at: bytes that cannot be
    decoded raise [UnicodeDecodeError] whatever the return code is. *)
Definition check_output (w : world) (cmd : list string) : io string :=
  match run_process w cmd with
  | Exited rc out =>
      if decide (rc = 0%Z) then (inr out, [Exec cmd])
      else (inl (CalledProcessError rc cmd out), [Exec cmd])
  | ExitedUndecodable _ => (inl UnicodeDecodeError, [Exec cmd])
  | SpawnFailed => (inl OSError, [Exec cmd])
  end.

(** *** Python values, as [json.loads] returns them *)

#[warnings="-register-all"] Inductive pyval :=
  | PyNone
  | PyBool (b : bool)
  | PyInt (z : Z)
  | PyFloat (f : spec_float)
  | PyStr (s : string)
  | PyList (l : list pyval)
  | PyDict (d : gmap string pyval).

(** Truth value of an object, as [not n] tests it. *)
Definition truthy (v : pyval) : bool :=
  match v with
  | PyNone => false
  | PyBool b => b
  | PyInt z => negb (z =? 0)%Z
  | PyFloat f => match f with S754_zero _ => false | _ => true end
  | PyStr s => if decide (s = "") then false else true
  | PyList l => match l with [] => false | _ => true end
  | PyDict d => if decide (d = ∅) then false else true
  end.

Fixpoint chars (s : string) : list pyval :=
  match s with
  | EmptyString => []
  | String c s' => PyStr (String c EmptyString) :: chars s'
  end.

(** [for rec in data]: the elements of a list, the keys of a dict, the
    characters of a string; nothing else can be iterated over.  (A dict
    yields its keys in the order of insertion; the order plays no role
    here, since the loop body raises on the first key, whichever it is.) *)
Definition iterate (data : pyval) : exn + list pyval :=
  match data with
  | PyList l => inr l
  | PyDict d => inr (PyStr <$> (map_to_list d).*1)
  | PyStr s => inr (chars s)
  | _ => inl TypeError
  end.

(** [rec.get(key, default)]: only a dict has the method. *)
Definition get (rec : pyval) (key : string) (dflt : pyval) : exn + pyval :=
  match rec with
  | PyDict d => inr (default dflt (d !! key))
  | _ => inl AttributeError
  end.

(** [normalize(n)] on an object: only a string has [strip]. *)
Definition normalize_obj (n : pyval) : exn + string :=
  match n with
  | PyStr s => inr (normalize s)
  | _ => inl AttributeError
  end.

(** *** The three parts of the script *)

(** [parse_conda_export(path)] *)
Definition parse_conda_export (w : world) (path : string) : io (gset string) :=
  let! text := read_text w path in
  ret (parse_lines (PyStr.splitlines text)).

(** The body of the loop of [docker_conda_list_json] for one record. *)
Definition add_record (installed : gmap string pyval) (rec : pyval)
    : exn + gmap string pyval :=
  match get rec "name" PyNone with
  | inl e => inl e
  | inr n =>
      if negb (truthy n) then inr installed
      else
        match get rec "version" (PyStr "") with
        | inl e => inl e
        | inr v =>
            match normalize_obj n with
            | inl e => inl e
            | inr k => inr (<[k := v]> installed)
            end
        end
  end.

Fixpoint add_records (installed : gmap string pyval) (recs : list pyval)
    : exn + gmap string pyval :=
  match recs with
  | [] => inr installed
  | rec :: recs' =>
      match add_record installed rec with
      | inl e => inl e
      | inr installed' => add_records installed' recs'
      end
  end.

(** [installed = {}; for rec in data: ...; return installed] *)
Definition collect_installed (data : pyval) : exn + gmap string pyval :=
  match iterate data with
  | inl e => inl e
  | inr recs => add_records ∅ recs
  end.

Definition docker_cmd (image env : string) : list string :=
  ["docker"; "run"; "--rm"; image; "conda"; "list"; "-n"; env; "--json"].

(** [sorted] on strings: ascending in the order of the code points.  That
    order is total and the names are distinct, so the sorted list does not
    depend on the sorting algorithm. *)
Definition sorted (l : list string) : list string := merge_sort String.le l.

(** The parsed command line. *)
Record args := Args {
  image : string;
  env : string;
  pins : string;
  ignore : list string
}.

Definition default_env : string := "notebook".
Definition default_pins : string := "packages-python-pinned.yaml".
Definition default_ignore : list string := [].

(** [{normalize(x) for x in args.ignore}] *)
Definition ignore_set (ign : list string) : gset string :=
  list_to_set (normalize <$> ign).

(** [{p for p in required if p not in ignore}] *)
Definition effective_required (required ign : gset string) : gset string :=
  filter (λ p, p ∉ ign) required.

(** [sorted([p for p in required if p not in installed])] *)
Definition missing_list (required : gset string)
    (installed : gmap string pyval) : list string :=
  sorted (filter (λ p, installed !! p = None) (elements required)).

Definition error_line : string :=
  "ERROR: failed to run conda list inside container.".

Section script.

(** [json.loads] of the standard library: the decoded value, or [None]
    where it raises [JSONDecodeError]. *)
Variable json_loads : string → option pyval.

(** [str(Path(p))]: the path as [pathlib] prints it. *)
Variable path_str : string → string.

(** [docker_conda_list_json(image, env)] *)
Definition docker_conda_list_json (w : world) (image env : string)
    : io (gmap string pyval) :=
  let cmd := docker_cmd image env in
  let! out :=
    try_except (check_output w cmd)
      (λ e, match e with
            | CalledProcessError _ _ output =>
                Some (print Stderr error_line
                      >>> print Stderr output
                      >>> raise e)
            | _ => None
            end) in
  let! data :=
    lift (match json_loads out with
          | Some v => inr v
          | None => inl JSONDecodeError
          end) in
  lift (collect_installed data).

(** [main()], after the command line has been parsed into [a]. *)
Definition main (w : world) (a : args) : io Z :=
  let pins_path := pins a in
  if negb (path_exists w pins_path) then
    print Stderr ("ERROR: pins file not found: " +:+ path_str pins_path)
    >>> ret 2%Z
  else
    let! required := parse_conda_export w pins_path in
    let required := effective_required required (ignore_set (ignore a)) in
    let! installed := docker_conda_list_json w (image a) (env a) in
    let missing := missing_list required installed in
    print Stdout ("Image: " +:+ image a)
    >>> print Stdout ("Env: " +:+ env a)
    >>> print Stdout ("Pins file: " +:+ path_str pins_path)
    >>> print Stdout ("Required packages (from pins): "
                      +:+ pretty (size required))
    >>> print Stdout ("Installed packages (from image): "
                      +:+ pretty (size installed))
    >>> print Stdout ""
    >>> match missing with
        | _ :: _ =>
            print Stdout
              "MISSING packages (present in pins file, absent in image):"
            >>> for_each missing (λ m, print Stdout ("  - " +:+ m))
            >>> print Stdout ""
            >>> ret 1%Z
        | [] =>
            print Stdout
              "OK: all packages in packages-python-pinned.yaml are present in the image."
            >>> ret 0%Z
        end.

(** [raise SystemExit(main())]: the exit status of the process.  An
    exception that leaves [main] ends the interpreter with status 1. *)
Definition exit_status (r : io Z) : Z :=
  match fst r with
  | inr code => code
  | inl _ => 1%Z
  end.

End script.

(** ** What the specification says, in its own words *)

(** "The name lowercased with every underscore replaced by a hyphen",
    character by character. *)
Definition lowered_hyphenated (name : string) : string :=
  PyStr.map (λ c, if Ascii.eqb c "_"%char then "-"%char
                  else PyStr.lower_char c) name.

(** Two characters that differ at most in case, or are both one of the
    two separators; two names are variants of each other when they are so
    character by character. *)
Definition is_sep (c : ascii) : bool :=
  Ascii.eqb c "_"%char || Ascii.eqb c "-"%char.

Definition variant_char (c d : ascii) : bool :=
  Ascii.eqb (PyStr.lower_char c) (PyStr.lower_char d) || is_sep c && is_sep d.

Fixpoint variant (x y : string) : bool :=
  match x, y with
  | EmptyString, EmptyString => true
  | String c x', String d y' => variant_char c d && variant x' y'
  | _, _ => false
  end.

(** A raw line of the manifest names the package [p]: the line, without
    the white space around it, is neither blank nor starts with '#'; what
    stands before its first '=', again without white space around it, is
    not empty, and [p] is that left part, normalized. *)
Definition names_package (raw p : string) : Prop :=
  let line := PyStr.strip raw in
  line ≠ "" ∧ PyStr.startswith line "#"%char = false ∧
  let left := PyStr.strip (PyStr.split_head "="%char line) in
  left ≠ "" ∧ p = normalize left.

(** Strictly ascending in the order of the code points. *)
Definition str_lt : relation string := strict String.le.

(** ** Sample inputs *)

Definition LF : string := String "010"%char EmptyString.

(** The manifest with the lines "# comment", "", "a=1.0=0", "b=2.0"
    and "c". *)
Definition sample_manifest : string :=
  "# comment" +:+ LF +:+ LF +:+ "a=1.0=0" +:+ LF +:+ "b=2.0" +:+ LF +:+ "c"
  +:+ LF.

Definition quoted (s : string) : string :=
  String "034"%char s +:+ String "034"%char EmptyString.

(** A listing of three records, as [conda list --json] prints them: one
    with a name and a version, one with a name only, one empty. *)
Definition sample_listing : string :=
  "[{" +:+ quoted "name" +:+ ": " +:+ quoted "A" +:+ ", "
       +:+ quoted "version" +:+ ": " +:+ quoted "1.0" +:+ "}, {"
       +:+ quoted "name" +:+ ": " +:+ quoted "c_x" +:+ "}, {}]".

Definition sample_records : list pyval :=
  [PyDict {[ "name" := PyStr "A"; "version" := PyStr "1.0" ]};
   PyDict {[ "name" := PyStr "c_x" ]};
   PyDict ∅].

(** An output that is not JSON: a line printed by the entry point of the
    image stands before the listing. *)
Definition sample_banner : string :=
  "Activating environment" +:+ LF +:+ "[]".

(** The part of [json.loads] that the sample outputs need: the listing
    decodes to its three records, and the output with the banner is
    refused, as [json.loads] refuses a text that does not start with a
    JSON value.  No other text is decoded with it. *)
Definition sample_loads (out : string) : option pyval :=
  if decide (out = sample_listing) then Some (PyList sample_records)
  else None.

Definition sample_fs (path : string) : fs_entry :=
  if decide (path = default_pins) then RegularFile sample_manifest
  else NoEntry.

(** The manifest is there; the image answers with the listing, with the
    banner, or its process exits with status 125, with a message or with
    bytes that are not text. *)
Definition sample_world : world := World sample_fs (λ _, Exited 0 sample_listing).
Definition banner_world : world := World sample_fs (λ _, Exited 0 sample_banner).
Definition failing_world : world :=
  World sample_fs (λ _, Exited 125 "docker: image not found").
Definition garbled_world : world :=
  World sample_fs (λ _, ExitedUndecodable 125).

Definition sample_args : args := Args "img" default_env default_pins default_ignore.

(** [str(Path(p))] for a path that [pathlib] prints as it was given, as
    it does the sample paths. *)
Definition plain_path_str (p : string) : string := p.

(** ** Auxiliary definitions for the proofs *)

(** Every key of the map is a fixed point of [normalize]. *)
Definition keys_normalized (m : gmap string pyval) : Prop :=
  ∀ k, is_Some (m !! k) → normalize k = k.

(** A record on which the body of the loop does not raise: an object
    whose "name" is absent, false as a condition, or a string. *)
Definition record_ok (rec : pyval) : bool :=
  match rec with
  | PyDict d =>
      match d !! "name" with
      | None => true
      | Some n => negb (truthy n) || match n with PyStr _ => true | _ => false end
      end
  | _ => false
  end.

(** A decoded value on which the loop does not raise: a list of such
    records, or an object or a string with nothing in it. *)
Definition is_listing (data : pyval) : bool :=
  match data with
  | PyList recs => forallb record_ok recs
  | PyDict d => bool_decide (d = ∅)
  | PyStr s => bool_decide (s = "")
  | _ => false
  end.

(** What the loop raises on a decoded value that is not a listing:
    [TypeError] where the value cannot be iterated over, [AttributeError]
    at the first item without [get] or name without [strip]. *)
Definition loop_error (data : pyval) : exn :=
  match data with
  | PyList _ | PyDict _ | PyStr _ => AttributeError
  | _ => TypeError
  end.

Definition ok_line : string :=
  "OK: all packages in packages-python-pinned.yaml are present in the image.".

Definition missing_line : string :=
  "MISSING packages (present in pins file, absent in image):".

Definition bullet (m : string) : event := Print Stdout ("  - " +:+ m).

(** The six lines of the summary. *)
Definition summary (path_str : string → string) (a : args)
    (required : gset string) (installed : gmap string pyval) : list event :=
  [Print Stdout ("Image: " +:+ image a);
   Print Stdout ("Env: " +:+ env a);
   Print Stdout ("Pins file: " +:+ path_str (pins a));
   Print Stdout ("Required packages (from pins): " +:+ pretty (size required));
   Print Stdout ("Installed packages (from image): "
                 +:+ pretty (size installed));
   Print Stdout ""].

(** What [normalize] does to one character. *)
Definition norm_char (c : ascii) : ascii :=
  let l := PyStr.lower_char c in
  if Ascii.eqb l "_"%char then "-"%char else l.

(** A non-empty string starts with a character that is not white space. *)
Definition head_nonspace (s : string) : Prop :=
  match s with
  | EmptyString => True
  | String c _ => PyStr.isspace c = false
  end.

Ltac each_char c := destruct c as [[] [] [] [] [] [] [] []]; vm_compute.


(** ** Further auxiliary definitions *)

(** Every character of the string passes the test. *)
Fixpoint str_forallb (P : ascii → bool) (s : string) : bool :=
  match s with
  | EmptyString => true
  | String c s' => P c && str_forallb P s'
  end.

Definition no_linebreak (s : string) : bool :=
  str_forallb (λ c, negb (PyStr.islinebreak c)) s.

Definition no_equals (s : string) : bool :=
  str_forallb (λ c, negb (Ascii.eqb c "="%char)) s.

Definition CRLF : string := String "013"%char (String "010"%char EmptyString).

(** The text of a file whose lines all end with [eol]. *)
Fixpoint terminated (eol : string) (lines : list string) : string :=
  match lines with
  | [] => EmptyString
  | l :: ls => l +:+ eol +:+ terminated eol ls
  end.

(** The key and the value that a record of a listing puts into the
    installed map, when it puts one. *)
Definition record_entry (rec : pyval) : option (string * pyval) :=
  match rec with
  | PyDict d =>
      match d !! "name" with
      | Some (PyStr n) =>
          if decide (n = "") then None
          else Some (normalize n, default (PyStr "") (d !! "version"))
      | _ => None
      end
  | _ => None
  end.

(** The commands of the processes that a trace starts, in order. *)
Fixpoint execs (t : list event) : list (list string) :=
  match t with
  | [] => []
  | Exec cmd :: t' => cmd :: execs t'
  | Print _ _ :: t' => execs t'
  end.

(** A listing that names one package twice, in two spellings. *)
Definition twice_listing : string :=
  "[{" +:+ quoted "name" +:+ ": " +:+ quoted "Foo_Bar" +:+ ", "
       +:+ quoted "version" +:+ ": " +:+ quoted "1" +:+ "}, {"
       +:+ quoted "name" +:+ ": " +:+ quoted "foo-bar" +:+ ", "
       +:+ quoted "version" +:+ ": " +:+ quoted "2" +:+ "}]".

Definition twice_records : list pyval :=
  [PyDict {[ "name" := PyStr "Foo_Bar"; "version" := PyStr "1" ]};
   PyDict {[ "name" := PyStr "foo-bar"; "version" := PyStr "2" ]}].

(** The part of [json.loads] that this listing needs. *)
Definition twice_loads (out : string) : option pyval :=
  if decide (out = twice_listing) then Some (PyList twice_records) else None.

Definition twice_world : world := World sample_fs (λ _, Exited 0 twice_listing).

(** The inspector raises [e] after the events [t], and so does [main]
    when it has read the manifest: nothing is returned and nothing more is
    printed. *)
Definition fatal (json_loads : string → option pyval)
    (path_str : string → string) (w : world) (a : args)
    (e : exn) (t : list event) : Prop :=
  docker_conda_list_json json_loads w (image a) (env a) = (inl e, t) ∧
  ∀ text, fs w (pins a) = RegularFile text →
          main json_loads path_str w a = (inl e, t).

(** An output that is JSON but no listing: an object that reports an
    error, with the part of [json.loads] that it needs. *)
Definition error_object : string :=
  "{" +:+ quoted "error" +:+ ": " +:+ quoted "no such environment" +:+ "}".

Definition error_loads (out : string) : option pyval :=
  if decide (out = error_object)
  then Some (PyDict {[ "error" := PyStr "no such environment" ]})
  else None.

Definition error_world : world := World sample_fs (λ _, Exited 0 error_object).
(** * Properties *)

(** ** String methods *)

Lemma isspace_lower_char c : PyStr.isspace (PyStr.lower_char c) = PyStr.isspace c.
Proof. each_char c; reflexivity. Qed.

Lemma isspace_norm_char c : PyStr.isspace (norm_char c) = PyStr.isspace c.
Proof. each_char c; reflexivity. Qed.

Lemma norm_char_idemp c : norm_char (norm_char c) = norm_char c.
Proof. each_char c; reflexivity. Qed.

Lemma norm_char_spec c :
  norm_char c = if Ascii.eqb c "_"%char then "-"%char else PyStr.lower_char c.
Proof. each_char c; reflexivity. Qed.

Lemma strmap_map f g s : PyStr.map f (PyStr.map g s) = PyStr.map (λ c, f (g c)) s.
Proof. induction s as [|c s IH]; simpl; [done | by rewrite IH]. Qed.

Lemma strmap_ext f g s : (∀ c, f c = g c) → PyStr.map f s = PyStr.map g s.
Proof. intros E. induction s as [|c s IH]; simpl; [done | by rewrite E, IH]. Qed.

Lemma strmap_nil_inv f s : PyStr.map f s = EmptyString → s = EmptyString.
Proof. by destruct s. Qed.

Section space_preserving.

Variable f : ascii → ascii.
Hypothesis f_space : ∀ c, PyStr.isspace (f c) = PyStr.isspace c.

Lemma lstrip_map s : PyStr.lstrip (PyStr.map f s) = PyStr.map f (PyStr.lstrip s).
Proof.
  induction s as [|c s IH]; simpl; [done|].
  rewrite f_space. by destruct (PyStr.isspace c).
Qed.

Lemma rstrip_map s : PyStr.rstrip (PyStr.map f s) = PyStr.map f (PyStr.rstrip s).
Proof.
  induction s as [|c s IH]; simpl; [done|].
  rewrite IH, f_space.
  destruct (PyStr.rstrip s) as [|d r]; simpl; [|done].
  by destruct (PyStr.isspace c).
Qed.

Lemma strip_map s : PyStr.strip (PyStr.map f s) = PyStr.map f (PyStr.strip s).
Proof. unfold PyStr.strip. by rewrite lstrip_map, rstrip_map. Qed.

End space_preserving.

Lemma lstrip_head_nonspace s : head_nonspace (PyStr.lstrip s).
Proof.
  induction s as [|c s IH]; simpl; [done|].
  by destruct (PyStr.isspace c) eqn:E.
Qed.

Lemma lstrip_fixed s : head_nonspace s → PyStr.lstrip s = s.
Proof. destruct s as [|c s]; simpl; [done|]. by intros ->. Qed.

Lemma rstrip_head_nonspace s : head_nonspace s → head_nonspace (PyStr.rstrip s).
Proof.
  destruct s as [|c s]; simpl; [done|]. intros E.
  destruct (PyStr.rstrip s); [by rewrite E | done].
Qed.

Lemma rstrip_idemp s : PyStr.rstrip (PyStr.rstrip s) = PyStr.rstrip s.
Proof.
  induction s as [|c s IH]; simpl; [done|].
  destruct (PyStr.rstrip s) as [|d r] eqn:E.
  - destruct (PyStr.isspace c) eqn:Ec; simpl; [done | by rewrite Ec].
  - change (PyStr.rstrip (String c (String d r))) with
      (match PyStr.rstrip (String d r) with
       | EmptyString =>
           if PyStr.isspace c then EmptyString else String c EmptyString
       | r' => String c r'
       end).
    by rewrite IH.
Qed.

Lemma strip_idemp s : PyStr.strip (PyStr.strip s) = PyStr.strip s.
Proof.
  unfold PyStr.strip.
  rewrite (lstrip_fixed (PyStr.rstrip (PyStr.lstrip s))).
  - apply rstrip_idemp.
  - apply rstrip_head_nonspace, lstrip_head_nonspace.
Qed.

Lemma normalize_map_strip name :
  normalize name = PyStr.map norm_char (PyStr.strip name).
Proof. unfold normalize, PyStr.replace, PyStr.lower. by rewrite strmap_map. Qed.

Lemma normalize_strip_map name :
  normalize name = PyStr.strip (PyStr.map norm_char name).
Proof.
  rewrite normalize_map_strip. symmetry. apply strip_map, isspace_norm_char.
Qed.

Lemma normalize_idemp x : normalize (normalize x) = normalize x.
Proof.
  rewrite (normalize_map_strip (normalize x)), (normalize_strip_map x).
  rewrite strip_idemp, <- normalize_strip_map, normalize_map_strip, strmap_map.
  apply strmap_ext, norm_char_idemp.
Qed.

Lemma normalize_nonempty name :
  PyStr.strip name ≠ EmptyString → normalize name ≠ EmptyString.
Proof. rewrite normalize_map_strip. intros H E. by apply strmap_nil_inv in E. Qed.

(** ** Normalization (C7, C9) *)

Lemma lowered_hyphenated_norm name :
  lowered_hyphenated name = PyStr.map norm_char name.
Proof. apply strmap_ext. intros c. symmetry. apply norm_char_spec. Qed.

Lemma is_sep_norm_char c : is_sep c = true → norm_char c = "-"%char.
Proof. each_char c; (reflexivity || discriminate). Qed.

Lemma lower_char_norm_char c d :
  PyStr.lower_char c = PyStr.lower_char d → norm_char c = norm_char d.
Proof. unfold norm_char. by intros ->. Qed.

Lemma variant_char_norm c d : variant_char c d = true → norm_char c = norm_char d.
Proof.
  unfold variant_char. intros [E|[Hc Hd]%andb_true_iff]%orb_true_iff.
  - apply lower_char_norm_char. by apply Ascii.eqb_eq.
  - by rewrite (is_sep_norm_char c), (is_sep_norm_char d).
Qed.

Lemma variant_map_norm x y :
  variant x y = true → PyStr.map norm_char x = PyStr.map norm_char y.
Proof.
  revert y. induction x as [|c x IH]; intros [|d y]; simpl; try done.
  intros [Hc Hx]%andb_true_iff.
  by rewrite (variant_char_norm c d), (IH y).
Qed.

(** C9.  Normalization is idempotent: normalizing a normalized name
    changes nothing, for every string. *)
Theorem normalize_idempotent (x : string) :
  normalize (normalize x) = normalize x.
Proof. apply normalize_idemp. Qed.

(** C7, as the specification words it, fails: [normalize] first strips
    the white space around the name, so a name with a leading blank does
    not come back "lowercased with underscores replaced" but shorter. *)
Lemma normalize_not_only_lowered_hyphenated :
  normalize " Foo_Bar" = "foo-bar" ∧
  lowered_hyphenated " Foo_Bar" = " foo-bar" ∧
  ¬ (∀ name, normalize name = lowered_hyphenated name).
Proof.
  split; [reflexivity|]. split; [reflexivity|].
  intros H. specialize (H " Foo_Bar"). vm_compute in H. discriminate H.
Qed.

(** C7, amended.  [normalize] returns the name without the white space
    around it, lowercased and with every underscore replaced by a hyphen;
    on a name that has no white space around it this is the name
    lowercased with underscores replaced.  Names that differ only in case
    and in the choice between underscore and hyphen get the same key, and
    normalize("Foo_Bar") = normalize("foo-bar"). *)
Theorem normalize_strips_lowers_hyphenates (name : string) :
  normalize name = lowered_hyphenated (PyStr.strip name) ∧
  (PyStr.strip name = name → normalize name = lowered_hyphenated name) ∧
  (∀ other, variant name other = true → normalize name = normalize other) ∧
  normalize "Foo_Bar" = normalize "foo-bar".
Proof.
  assert (E : normalize name = lowered_hyphenated (PyStr.strip name)).
  { by rewrite lowered_hyphenated_norm, normalize_map_strip. }
  split; [exact E|]. split; [intros H; by rewrite H in E|]. split; [|reflexivity].
  intros other V. rewrite !normalize_strip_map.
  by rewrite (variant_map_norm name other).
Qed.

Lemma normalize_strips_lowers_hyphenates_witness :
  normalize "Foo_Bar" = lowered_hyphenated "Foo_Bar" ∧
  normalize "Foo_Bar" = normalize "foo-bar".
Proof.
  destruct (normalize_strips_lowers_hyphenates "Foo_Bar") as (_ & H & V & _).
  split; [apply H; reflexivity | apply V; reflexivity].
Defined.

(** ** The pin parser (C5) *)

Lemma elem_of_parse_line req raw p :
  p ∈ parse_line req raw ↔ p ∈ req ∨ names_package raw p.
Proof.
  unfold parse_line, names_package.
  destruct (decide (PyStr.strip raw = "")) as [E|E].
  { split; [by left | by intros [H|[H _]]]. }
  destruct (PyStr.startswith (PyStr.strip raw) "#") eqn:Hh.
  { split; [by left | by intros [H|(_ & H & _)]]. }
  destruct (decide (PyStr.strip (PyStr.split_head "=" (PyStr.strip raw)) = ""))
    as [El|El].
  { split; [by left | by intros [H|(_ & _ & H & _)]]. }
  rewrite elem_of_union, elem_of_singleton. tauto.
Qed.

Lemma elem_of_foldl_parse_line lines req p :
  p ∈ foldl parse_line req lines ↔
  p ∈ req ∨ ∃ raw, raw ∈ lines ∧ names_package raw p.
Proof.
  revert req. induction lines as [|raw lines IH]; intros req; simpl.
  - split; [by left|]. intros [H|(raw & H & _)]; [done|].
    by apply elem_of_nil in H.
  - rewrite IH, elem_of_parse_line. split.
    + intros [[H|H]|(r & Hr & H)]; [by left | right..].
      * exists raw. split; [left | done].
      * exists r. split; [by right | done].
    + intros [H|(r & Hr & H)]; [by left; left|].
      apply elem_of_cons in Hr as [->|Hr]; [by left; right|].
      right. by exists r.
Qed.

Lemma elem_of_parse_lines lines p :
  p ∈ parse_lines lines ↔ ∃ raw, raw ∈ lines ∧ names_package raw p.
Proof.
  unfold parse_lines. rewrite elem_of_foldl_parse_line.
  split; [intros [H|H]; [by apply elem_of_empty in H | done] | by right].
Qed.

(** C5.  The parser reads the manifest and yields exactly the set of
    names obtained from its lines: a line counts when, stripped of white
    space, it is neither blank nor starts with '#'; it is split on its
    first '=', the left part is stripped, an empty left part is skipped,
    and the normalized left part is the name.  The lines "# comment", "",
    "a=1.0=0", "b=2.0", "c" yield the set of a, b and c. *)
Theorem parser_yields_normalized_left_parts (w : world) (path text : string) :
  fs w path = RegularFile text →
  ∃ req : gset string,
    parse_conda_export w path = (inr req, []) ∧
    req = parse_lines (PyStr.splitlines text) ∧
    (∀ p, p ∈ req ↔
          ∃ raw, raw ∈ PyStr.splitlines text ∧ names_package raw p) ∧
    parse_lines ["# comment"; ""; "a=1.0=0"; "b=2.0"; "c"]
      = ({[ "a"; "b"; "c" ]} : gset string).
Proof.
  intros Hfs. exists (parse_lines (PyStr.splitlines text)).
  split; [|split; [done|split]].
  - unfold parse_conda_export, read_text. by rewrite Hfs.
  - apply elem_of_parse_lines.
  - by vm_compute.
Qed.

Lemma parser_yields_normalized_left_parts_witness :
  parse_conda_export (World (λ _, RegularFile sample_manifest) (λ _, SpawnFailed))
    "packages-python-pinned.yaml"
  = (inr ({[ "a"; "b"; "c" ]} : gset string), []).
Proof.
  destruct (parser_yields_normalized_left_parts
              (World (λ _, RegularFile sample_manifest) (λ _, SpawnFailed))
              "packages-python-pinned.yaml" sample_manifest eq_refl)
    as (req & -> & -> & _).
  by vm_compute.
Defined.

(** ** Ignore filtering (C6) *)

Lemma elem_of_ignore_set ign p :
  p ∈ ignore_set ign ↔ ∃ x, x ∈ ign ∧ normalize x = p.
Proof.
  unfold ignore_set. rewrite elem_of_list_to_set, list_elem_of_fmap.
  split; intros (x & H1 & H2); exists x; by split.
Qed.

Lemma elem_of_effective_required required (ign : gset string) p :
  p ∈ effective_required required ign ↔ p ∈ required ∧ p ∉ ign.
Proof. unfold effective_required. rewrite elem_of_filter. tauto. Qed.

Lemma normalize_lower x y :
  PyStr.lower x = PyStr.lower y → normalize x = normalize y.
Proof.
  intros E. unfold normalize, PyStr.lower.
  rewrite <- !(strip_map _ isspace_lower_char).
  by rewrite <- !(eq_refl : PyStr.lower _ = PyStr.map PyStr.lower_char _), E.
Qed.

Lemma ignore_set_lower ign ign' :
  Forall2 (λ x y, PyStr.lower x = PyStr.lower y) ign ign' →
  ignore_set ign = ignore_set ign'.
Proof.
  intros H. unfold ignore_set. f_equal.
  induction H as [|x y l l' E _ IH]; csimpl; [done|].
  by rewrite (normalize_lower x y E), IH.
Qed.

(** C6.  Ignore filtering is case-insensitive: every ignore entry is
    normalized before it is taken away from the required set, so entries
    that differ only in case ignore the same packages; required a, b, c
    with ignore "B" leaves a and c. *)
Theorem ignore_entries_are_normalized
    (required : gset string) (ign : list string) :
  (∀ p, p ∈ effective_required required (ignore_set ign) ↔
        p ∈ required ∧ ∀ x, x ∈ ign → normalize x ≠ p) ∧
  (∀ ign', Forall2 (λ x y, PyStr.lower x = PyStr.lower y) ign ign' →
           effective_required required (ignore_set ign)
           = effective_required required (ignore_set ign')) ∧
  effective_required {[ "a"; "b"; "c" ]} (ignore_set ["B"])
    = ({[ "a"; "c" ]} : gset string).
Proof.
  split; [|split].
  - intros p. rewrite elem_of_effective_required, elem_of_ignore_set.
    split; intros [H1 H2]; (split; [done|]).
    + intros x Hx E. apply H2. by exists x.
    + intros (x & Hx & E). by apply (H2 x).
  - intros ign' H. by rewrite (ignore_set_lower ign ign').
  - by vm_compute.
Qed.

Lemma ignore_entries_are_normalized_witness :
  effective_required {[ "a"; "b"; "c" ]} (ignore_set ["B"; "num_PY"])
  = effective_required {[ "a"; "b"; "c" ]} (ignore_set ["b"; "NUM_py"]).
Proof.
  destruct (ignore_entries_are_normalized {[ "a"; "b"; "c" ]} ["B"; "num_PY"])
    as (_ & H & _).
  apply H. repeat constructor.
Defined.

(** ** The missing list (C2) *)

Global Instance str_lt_trans : Transitive str_lt.
Proof. unfold str_lt. apply _. Qed.

Lemma StronglySorted_le_lt (l : list string) :
  NoDup l → StronglySorted String.le l → StronglySorted str_lt l.
Proof.
  induction 2 as [|x l Hs IH Hx]; [constructor|].
  apply NoDup_cons in H as [Hn Hd]. constructor; [by apply IH|].
  apply Forall_forall. intros y Hy. split.
  - by apply (proj1 (Forall_forall _ _) Hx).
  - intros Hyx. apply Hn.
    assert (x = y) as ->; [|done].
    apply (anti_symm String.le); [|done].
    by apply (proj1 (Forall_forall _ _) Hx).
Qed.

Lemma StronglySorted_lt_le (l : list string) :
  StronglySorted str_lt l → StronglySorted String.le l ∧ NoDup l.
Proof.
  induction 1 as [|x l Hs [IH1 IH2] Hx]; [split; constructor|].
  split.
  - constructor; [done|]. eapply Forall_impl; [exact Hx|]. by intros y [? _].
  - apply NoDup_cons. split; [|done]. intros Hin.
    apply (proj1 (Forall_forall _ _) Hx) in Hin as [_ Hn]. by apply Hn.
Qed.

Lemma sorted_strongly (l : list string) :
  NoDup l → StronglySorted str_lt (sorted l).
Proof.
  intros Hd. apply StronglySorted_le_lt.
  - unfold sorted. by rewrite merge_sort_Permutation.
  - apply Sorted_StronglySorted; [apply _|]. apply Sorted_merge_sort; apply _.
Qed.

Lemma elem_of_sorted (l : list string) p : p ∈ sorted l ↔ p ∈ l.
Proof. unfold sorted. by rewrite merge_sort_Permutation. Qed.

Lemma sorted_unique (l1 l2 : list string) :
  Sorted str_lt l1 → Sorted str_lt l2 → (∀ p, p ∈ l1 ↔ p ∈ l2) → l1 = l2.
Proof.
  intros H1%Sorted_StronglySorted%StronglySorted_lt_le
         H2%Sorted_StronglySorted%StronglySorted_lt_le E; [|apply _..].
  destruct H1 as [S1 D1], H2 as [S2 D2].
  apply (Sorted_unique String.le).
  - by apply StronglySorted_Sorted.
  - by apply StronglySorted_Sorted.
  - by apply NoDup_Permutation.
Qed.

Lemma missing_list_sorted required installed :
  StronglySorted str_lt (missing_list required installed).
Proof.
  unfold missing_list. apply sorted_strongly, NoDup_filter, NoDup_elements.
Qed.

Lemma elem_of_missing_list required installed p :
  p ∈ missing_list required installed ↔ p ∈ required ∧ installed !! p = None.
Proof.
  unfold missing_list.
  rewrite elem_of_sorted, list_elem_of_filter, elem_of_elements. tauto.
Qed.

(** C2.  The missing list is the alphabetically sorted list of the names
    that are in the required set, not in the ignore set and not keys of
    the installed map: it is strictly ascending, it holds exactly these
    names, and it is the only list that does both.  Required a, b, c with
    a and c installed and nothing ignored gives the list of b alone. *)
Theorem missing_is_sorted_difference
    (required ign : gset string) (installed : gmap string pyval) :
  let missing := missing_list (effective_required required ign) installed in
  StronglySorted str_lt missing ∧
  (∀ p, p ∈ missing ↔ p ∈ required ∧ (p ∉ ign) ∧ installed !! p = None) ∧
  (∀ l, Sorted str_lt l →
        (∀ p, p ∈ l ↔ p ∈ required ∧ (p ∉ ign) ∧ installed !! p = None) →
        l = missing) ∧
  missing_list (effective_required {[ "a"; "b"; "c" ]} ∅)
    {[ "a" := PyStr "1.0"; "c" := PyStr "3.0" ]} = ["b"].
Proof.
  intros missing.
  assert (Hin : ∀ p, p ∈ missing ↔
                     p ∈ required ∧ (p ∉ ign) ∧ installed !! p = None).
  { intros p. unfold missing.
    rewrite elem_of_missing_list, elem_of_effective_required. tauto. }
  split; [apply missing_list_sorted|]. split; [exact Hin|]. split.
  - intros l Hl Hp. apply sorted_unique; [done| |].
    + apply StronglySorted_Sorted, missing_list_sorted.
    + intros p. by rewrite Hp, Hin.
  - by vm_compute.
Qed.

Lemma missing_is_sorted_difference_witness :
  ["b"; "d"]
  = missing_list (effective_required {[ "d"; "a"; "b"; "c" ]} {[ "c" ]})
      {[ "a" := PyStr "1.0" ]}.
Proof.
  destruct (missing_is_sorted_difference {[ "d"; "a"; "b"; "c" ]} {[ "c" ]}
              {[ "a" := PyStr "1.0" ]}) as (_ & _ & H & _).
  apply H.
  - repeat constructor; by vm_compute.
  - intros p. rewrite !elem_of_cons, elem_of_nil, !elem_of_union,
      !elem_of_singleton, lookup_singleton_None.
    split.
    + intros [->|[->|[]]]; (split; [tauto|split; discriminate]).
    + intros ([[[->| ->]| ->]| ->] & Hc & Ha); tauto.
Defined.

(** ** The image inspector (C4, C8, C10) *)

Section inspector.

Variable json_loads : string → option pyval.

Lemma inspector_exit_nonzero w image env rc out :
  run_process w (docker_cmd image env) = Exited rc out → rc ≠ 0%Z →
  docker_conda_list_json json_loads w image env
  = (inl (CalledProcessError rc (docker_cmd image env) out),
     [Exec (docker_cmd image env); Print Stderr error_line; Print Stderr out]).
Proof.
  intros Hrun Hrc. unfold docker_conda_list_json, check_output.
  rewrite Hrun. by destruct (decide (rc = 0%Z)).
Qed.

Lemma inspector_exit_zero w image env out :
  run_process w (docker_cmd image env) = Exited 0 out →
  docker_conda_list_json json_loads w image env
  = (match json_loads out with
     | Some data => collect_installed data
     | None => inl JSONDecodeError
     end, [Exec (docker_cmd image env)]).
Proof.
  intros Hrun. unfold docker_conda_list_json, check_output.
  rewrite Hrun. simpl.
  destruct (json_loads out) as [data|]; simpl; [|done].
  by destruct (collect_installed data).
Qed.

Lemma inspector_undecodable w image env rc :
  run_process w (docker_cmd image env) = ExitedUndecodable rc →
  docker_conda_list_json json_loads w image env
  = (inl UnicodeDecodeError, [Exec (docker_cmd image env)]).
Proof.
  intros Hrun. unfold docker_conda_list_json, check_output. by rewrite Hrun.
Qed.

Lemma inspector_spawn_failed w image env :
  run_process w (docker_cmd image env) = SpawnFailed →
  docker_conda_list_json json_loads w image env
  = (inl OSError, [Exec (docker_cmd image env)]).
Proof.
  intros Hrun. unfold docker_conda_list_json, check_output. by rewrite Hrun.
Qed.

(** The inspector always starts the container, and prints nothing to the
    standard output. *)
Lemma inspector_trace w image env :
  ∃ t, snd (docker_conda_list_json json_loads w image env)
       = Exec (docker_cmd image env) :: t ∧
       ∀ text, Print Stdout text ∉ t.
Proof.
  destruct (run_process w (docker_cmd image env)) as [rc out|rc|] eqn:Hrun.
  - destruct (decide (rc = 0%Z)) as [->|Hrc].
    + rewrite (inspector_exit_zero _ _ _ _ Hrun). exists []. split; [done|].
      intros text H. by apply elem_of_nil in H.
    + rewrite (inspector_exit_nonzero _ _ _ _ _ Hrun Hrc).
      eexists. split; [done|]. intros text H.
      apply elem_of_cons in H as [H|H]; [done|].
      apply elem_of_cons in H as [H|H]; [done|]. by apply elem_of_nil in H.
  - rewrite (inspector_undecodable _ _ _ _ Hrun). exists []. split; [done|].
    intros text H. by apply elem_of_nil in H.
  - rewrite (inspector_spawn_failed _ _ _ Hrun). exists []. split; [done|].
    intros text H. by apply elem_of_nil in H.
Qed.

End inspector.

(** *** The records of a listing *)

Lemma add_record_skip m (d : gmap string pyval) :
  d !! "name" = None ∨ d !! "name" = Some (PyStr "") →
  add_record m (PyDict d) = inr m.
Proof. unfold add_record. simpl. by intros [-> | ->]. Qed.

Lemma add_record_no_version m (d : gmap string pyval) n :
  d !! "name" = Some (PyStr n) → n ≠ "" → d !! "version" = None →
  add_record m (PyDict d) = inr (<[normalize n := PyStr ""]> m).
Proof.
  intros Hn Hne Hv. unfold add_record. simpl. rewrite Hn, Hv. simpl.
  by destruct (decide (n = "")).
Qed.

Lemma add_records_app m l1 l2 :
  add_records m (l1 ++ l2)
  = match add_records m l1 with
    | inl e => inl e
    | inr m' => add_records m' l2
    end.
Proof.
  revert m. induction l1 as [|rec l1 IH]; intros m; simpl; [done|].
  by destruct (add_record m rec).
Qed.

Lemma add_record_keys m rec m' :
  add_record m rec = inr m' → keys_normalized m → keys_normalized m'.
Proof.
  unfold add_record. intros H Hm.
  destruct (get rec "name" PyNone) as [e|n]; [done|].
  destruct (truthy n); simpl in H; [|by inversion H; subst].
  destruct (get rec "version" (PyStr "")) as [e|v]; [done|].
  destruct n; simpl in H; try done.
  inversion H; subst. intros k.
  destruct (decide (normalize s = k)) as [<-|Hk].
  - intros _. apply normalize_idemp.
  - rewrite lookup_insert_ne by done. apply Hm.
Qed.

Lemma add_records_keys recs m m' :
  add_records m recs = inr m' → keys_normalized m → keys_normalized m'.
Proof.
  revert m. induction recs as [|rec recs IH]; intros m; simpl.
  - by inversion 1; subst.
  - destruct (add_record m rec) as [e|m1] eqn:E; [done|].
    intros H Hm. apply (IH m1 H). by apply (add_record_keys m rec).
Qed.

Lemma collect_installed_keys data m :
  collect_installed data = inr m → keys_normalized m.
Proof.
  unfold collect_installed. destruct (iterate data) as [e|recs]; [done|].
  intros H. apply (add_records_keys recs ∅ m H).
  intros k [v Hv]. by rewrite lookup_empty in Hv.
Qed.

Lemma parse_lines_normalized lines p : p ∈ parse_lines lines → normalize p = p.
Proof.
  rewrite elem_of_parse_lines. intros (raw & _ & _ & _ & _ & ->).
  apply normalize_idemp.
Qed.

Section inspector_results.

Variable json_loads : string → option pyval.

Lemma inspector_returns w image env installed :
  fst (docker_conda_list_json json_loads w image env) = inr installed →
  ∃ out data,
    run_process w (docker_cmd image env) = Exited 0 out ∧
    json_loads out = Some data ∧
    collect_installed data = inr installed ∧
    docker_conda_list_json json_loads w image env
    = (inr installed, [Exec (docker_cmd image env)]).
Proof.
  destruct (run_process w (docker_cmd image env)) as [rc out|rc|] eqn:Hrun.
  - destruct (decide (rc = 0%Z)) as [->|Hrc].
    + rewrite (inspector_exit_zero _ _ _ _ _ Hrun). simpl.
      destruct (json_loads out) as [data|] eqn:Hd; [|done].
      intros H. exists out, data. by rewrite H.
    + by rewrite (inspector_exit_nonzero _ _ _ _ _ _ Hrun Hrc).
  - by rewrite (inspector_undecodable _ _ _ _ _ Hrun).
  - by rewrite (inspector_spawn_failed _ _ _ _ Hrun).
Qed.

(** C10.  In a listing that was decoded, a record whose "name" is absent
    or the empty string is skipped: the loop leaves the map as it is and
    raises nothing, and the inspector returns what it returns for the
    listing without that record.  A record with a name and no "version"
    puts the empty string under the normalized name. *)
Theorem nameless_skipped_versionless_empty
    (w : world) (image env out : string)
    (l1 l2 : list pyval) (d : gmap string pyval) :
  run_process w (docker_cmd image env) = Exited 0 out →
  json_loads out = Some (PyList (l1 ++ PyDict d :: l2)) →
  let result := fst (docker_conda_list_json json_loads w image env) in
  (d !! "name" = None ∨ d !! "name" = Some (PyStr "") →
   (∀ m, add_record m (PyDict d) = inr m) ∧
   result = collect_installed (PyList (l1 ++ l2))) ∧
  (∀ n m, d !! "name" = Some (PyStr n) → n ≠ "" → d !! "version" = None →
          add_records ∅ l1 = inr m →
          add_record m (PyDict d) = inr (<[normalize n := PyStr ""]> m) ∧
          result = add_records (<[normalize n := PyStr ""]> m) l2).
Proof.
  intros Hrun Hdata result. unfold result.
  rewrite (inspector_exit_zero _ _ _ _ _ Hrun), Hdata. simpl.
  unfold collect_installed. simpl. rewrite !add_records_app. simpl. split.
  - intros Hname. split; [intros m; by apply add_record_skip|].
    destruct (add_records ∅ l1) as [e|m]; [done|].
    by rewrite (add_record_skip m d Hname).
  - intros n m Hn Hne Hv ->.
    by rewrite (add_record_no_version m d n Hn Hne Hv).
Qed.

(** C8.  Normalization is applied on both sides before the sets are
    compared: every name of the required set that the parser returns,
    every element of the ignore set and every key of the installed map
    that the inspector returns is a fixed point of [normalize]. *)
Theorem names_are_normalized_on_both_sides
    (w : world) (path image env : string) (ign : list string)
    (required : gset string) (installed : gmap string pyval) :
  fst (parse_conda_export w path) = inr required →
  fst (docker_conda_list_json json_loads w image env) = inr installed →
  (∀ p, p ∈ required → normalize p = p) ∧
  (∀ p, p ∈ ignore_set ign → normalize p = p) ∧
  (∀ k, k ∈ dom installed → normalize k = k).
Proof.
  intros Hp Hi. split; [|split].
  - unfold parse_conda_export, read_text in Hp.
    destruct (fs w path) as [|text|]; simpl in Hp; [done| |done].
    inversion Hp; subst. intros p. apply parse_lines_normalized.
  - intros p (x & _ & <-)%elem_of_ignore_set. apply normalize_idemp.
  - apply inspector_returns in Hi as (out & data & _ & _ & Hc & _).
    intros k Hk%elem_of_dom. by apply (collect_installed_keys data installed).
Qed.

End inspector_results.

Lemma nameless_skipped_versionless_empty_witness :
  fst (docker_conda_list_json sample_loads sample_world "img" "notebook")
  = collect_installed (PyList (take 2 sample_records)) ∧
  fst (docker_conda_list_json sample_loads sample_world "img" "notebook")
  = inr {[ "a" := PyStr "1.0"; "c-x" := PyStr "" ]}.
Proof.
  split.
  { destruct (nameless_skipped_versionless_empty sample_loads sample_world
                "img" "notebook" sample_listing
                (take 2 sample_records) [] ∅ eq_refl eq_refl) as [H _].
    destruct H as [_ ->]; [by left | reflexivity]. }
  destruct (nameless_skipped_versionless_empty sample_loads sample_world
              "img" "notebook" sample_listing
              [PyDict {[ "name" := PyStr "A"; "version" := PyStr "1.0" ]}]
              [PyDict ∅] {[ "name" := PyStr "c_x" ]} eq_refl eq_refl)
    as [_ H].
  destruct (H "c_x" {[ "a" := PyStr "1.0" ]}) as [_ ->];
    [reflexivity | discriminate | reflexivity | reflexivity |].
  by vm_compute.
Defined.

Lemma names_are_normalized_on_both_sides_witness :
  normalize "c-x" = "c-x" ∧ normalize "b" = "b".
Proof.
  destruct (names_are_normalized_on_both_sides sample_loads sample_world
              default_pins "img" "notebook" ["B"]
              {[ "a"; "b"; "c" ]} {[ "a" := PyStr "1.0"; "c-x" := PyStr "" ]})
    as (_ & Hi & Hm); [by vm_compute | by vm_compute |].
  split; [apply Hm | apply Hi]; by vm_compute.
Defined.

(** ** The comparator and reporter (C1, C3, C4) *)

Lemma for_each_bullets (l : list string) :
  for_each l (λ m, print Stdout ("  - " +:+ m)) = (inr tt, bullet <$> l).
Proof.
  induction l as [|m l IH]; [done|]. cbn [for_each]. by rewrite IH.
Qed.

Lemma add_record_ok m rec :
  record_ok rec = true → ∃ m', add_record m rec = inr m'.
Proof.
  destruct rec as [| | | | | |d]; try discriminate.
  unfold record_ok, add_record. simpl.
  destruct (d !! "name") as [n|]; simpl; [|by eexists].
  destruct (truthy n); simpl; [|by eexists].
  destruct n; try discriminate. by eexists.
Qed.

Lemma add_record_bad m rec :
  record_ok rec = false → add_record m rec = inl AttributeError.
Proof.
  destruct rec as [| | | | | |d]; try done.
  unfold record_ok, add_record. simpl.
  destruct (d !! "name") as [n|]; simpl; [|discriminate].
  destruct (truthy n); simpl; [|discriminate].
  by destruct n.
Qed.

Lemma add_records_ok recs m :
  forallb record_ok recs = true → ∃ m', add_records m recs = inr m'.
Proof.
  revert m. induction recs as [|rec recs IH]; intros m; simpl; [by eexists|].
  intros [Hr Hrs]%andb_true_iff.
  destruct (add_record_ok m rec Hr) as [m1 ->]. by apply IH.
Qed.

Lemma add_records_bad recs m :
  forallb record_ok recs = false → add_records m recs = inl AttributeError.
Proof.
  revert m. induction recs as [|rec recs IH]; intros m; simpl; [done|].
  destruct (record_ok rec) eqn:Hr; simpl.
  - intros Hrs. destruct (add_record_ok m rec Hr) as [m1 ->]. by apply IH.
  - intros _. by rewrite (add_record_bad m rec Hr).
Qed.

Lemma collect_installed_listing data :
  is_listing data = true → ∃ installed, collect_installed data = inr installed.
Proof.
  unfold collect_installed.
  destruct data as [| | | |s|recs|d]; try discriminate; simpl.
  - intros ->%bool_decide_eq_true. by eexists.
  - apply add_records_ok.
  - intros ->%bool_decide_eq_true. rewrite map_to_list_empty. by eexists.
Qed.

Lemma collect_installed_not_listing data :
  is_listing data = false → collect_installed data = inl (loop_error data).
Proof.
  unfold collect_installed.
  destruct data as [| | | |s|recs|d]; try done; simpl.
  - intros Hs%bool_decide_eq_false. by destruct s.
  - apply add_records_bad.
  - intros Hd%bool_decide_eq_false.
    destruct (map_to_list d) as [|[k v] l] eqn:E; [|done].
    by apply map_to_list_empty_iff in E.
Qed.

Section main_runs.

Variable json_loads : string → option pyval.
Variable path_str : string → string.

Lemma main_absent w a :
  path_exists w (pins a) = false →
  main json_loads path_str w a
  = (inr 2%Z,
     [Print Stderr ("ERROR: pins file not found: " +:+ path_str (pins a))]).
Proof. intros H. unfold main. by rewrite H. Qed.

Lemma main_unreadable w a :
  fs w (pins a) = Unreadable → main json_loads path_str w a = (inl OSError, []).
Proof.
  intros H. unfold main, path_exists, parse_conda_export, read_text.
  by rewrite H.
Qed.

Lemma main_inspector_raises w a text e :
  fs w (pins a) = RegularFile text →
  fst (docker_conda_list_json json_loads w (image a) (env a)) = inl e →
  main json_loads path_str w a
  = (inl e, snd (docker_conda_list_json json_loads w (image a) (env a))).
Proof.
  intros Hfs He. unfold main, path_exists, parse_conda_export, read_text.
  rewrite Hfs. simpl.
  destruct (docker_conda_list_json json_loads w (image a) (env a)) as [r t].
  simpl in He. by subst r.
Qed.

Lemma main_report w a text installed :
  fs w (pins a) = RegularFile text →
  fst (docker_conda_list_json json_loads w (image a) (env a)) = inr installed →
  let required :=
    effective_required (parse_lines (PyStr.splitlines text))
      (ignore_set (ignore a)) in
  let missing := missing_list required installed in
  main json_loads path_str w a
  = (inr (match missing with [] => 0%Z | _ => 1%Z end),
     Exec (docker_cmd (image a) (env a))
     :: summary path_str a required installed
     ++ match missing with
        | [] => [Print Stdout ok_line]
        | _ => Print Stdout missing_line :: (bullet <$> missing)
               ++ [Print Stdout ""]
        end).
Proof.
  intros Hfs Hi required missing.
  apply inspector_returns in Hi as (_ & _ & _ & _ & _ & Hrun).
  unfold main, path_exists, parse_conda_export, read_text.
  rewrite Hfs. simpl. rewrite Hrun. simpl.
  fold required. fold missing.
  destruct missing as [|m l] eqn:Hm; [done|].
  rewrite for_each_bullets. by simpl.
Qed.

(** C1.  When the pins path does not exist, [main] prints one error line
    to the standard error and returns 2, which becomes the exit status;
    the inspector is not called: no process is started in that run. *)
Theorem absent_pins_exit_2_no_container (w : world) (a : args) :
  path_exists w (pins a) = false →
  let run := main json_loads path_str w a in
  fst run = inr 2%Z ∧
  exit_status run = 2%Z ∧
  snd run
  = [Print Stderr ("ERROR: pins file not found: " +:+ path_str (pins a))] ∧
  ∀ cmd, Exec cmd ∉ snd run.
Proof.
  intros H run. unfold run. rewrite (main_absent w a H).
  repeat split. intros cmd Hin.
  apply elem_of_cons in Hin as [Hin|Hin]; [done | by apply elem_of_nil in Hin].
Qed.

(** C3.  In a run where the pins file exists and the inspection was made
    and succeeded, [main] returns 0 exactly when the missing list is
    empty, and then the last line printed is the success line; it returns
    1 exactly when the missing list is not empty, and then the output
    ends with the heading, one bullet for each missing name in ascending
    order, and an empty line. *)
Theorem exit_code_tells_missing
    (w : world) (a : args) (installed : gmap string pyval) :
  path_exists w (pins a) = true →
  Exec (docker_cmd (image a) (env a)) ∈ snd (main json_loads path_str w a) →
  fst (docker_conda_list_json json_loads w (image a) (env a)) = inr installed →
  ∃ required,
    fst (parse_conda_export w (pins a)) = inr required ∧
    let missing :=
      missing_list (effective_required required (ignore_set (ignore a)))
        installed in
    let run := main json_loads path_str w a in
    (fst run = inr 0%Z ↔ missing = []) ∧
    (fst run = inr 1%Z ↔ missing ≠ []) ∧
    (exit_status run = 0%Z ↔ missing = []) ∧
    (exit_status run = 1%Z ↔ missing ≠ []) ∧
    (missing = [] → ∃ pre, snd run = pre ++ [Print Stdout ok_line]) ∧
    (missing ≠ [] →
     ∃ pre, snd run = pre ++ Print Stdout missing_line :: (bullet <$> missing)
                          ++ [Print Stdout ""]) ∧
    StronglySorted str_lt missing.
Proof.
  intros Hex Hrun Hi. unfold path_exists in Hex.
  destruct (fs w (pins a)) as [|text|] eqn:Hfs; [done| |].
  2:{ rewrite (main_unreadable w a Hfs) in Hrun. by apply elem_of_nil in Hrun. }
  exists (parse_lines (PyStr.splitlines text)). split.
  { unfold parse_conda_export, read_text. by rewrite Hfs. }
  intros missing run. unfold run.
  rewrite (main_report w a text installed Hfs Hi). fold missing.
  assert (Hs : StronglySorted str_lt missing) by apply missing_list_sorted.
  unfold exit_status. clearbody missing.
  destruct missing as [|m l]; cbn [fst snd].
  - repeat split; try done.
    intros _. eexists (_ :: _). reflexivity.
  - repeat split; try done.
    intros _. eexists (_ :: _). reflexivity.
Qed.

(** C4, amended.  A failure of the inspector is fatal: the exception
    leaves the inspector, and [main] after it, with no installed map
    returned and nothing printed after the failure.  The inspector fails
    when the process cannot be started, when its captured bytes are not
    text, when it exits with a status other than 0, when the decoder
    refuses its output, and when the decoded value is not a listing (it
    cannot be iterated over, or holds an item that is not an object or
    whose name is true as a condition and not a string).  An error line
    and the captured transcript are printed to the standard error in one
    of these cases only: the process exited with a status other than 0
    and its output is text.  In the others the script prints nothing.  A
    decoded value that is a listing (an empty object and an empty string
    are) is no failure: the inspector returns a map. *)
Theorem inspector_failure_is_fatal (w : world) (a : args) :
  let cmd := docker_cmd (image a) (env a) in
  let fatal := fatal json_loads path_str w a in
  (run_process w cmd = SpawnFailed → fatal OSError [Exec cmd]) ∧
  (∀ rc, run_process w cmd = ExitedUndecodable rc →
         fatal UnicodeDecodeError [Exec cmd]) ∧
  (∀ rc out, run_process w cmd = Exited rc out → rc ≠ 0%Z →
             fatal (CalledProcessError rc cmd out)
               [Exec cmd; Print Stderr error_line; Print Stderr out]) ∧
  (∀ out, run_process w cmd = Exited 0 out → json_loads out = None →
          fatal JSONDecodeError [Exec cmd]) ∧
  (∀ out data, run_process w cmd = Exited 0 out →
               json_loads out = Some data → is_listing data = false →
               fatal (loop_error data) [Exec cmd]) ∧
  (∀ out data, run_process w cmd = Exited 0 out →
               json_loads out = Some data → is_listing data = true →
               ∃ installed,
                 docker_conda_list_json json_loads w (image a) (env a)
                 = (inr installed, [Exec cmd])).
Proof.
  intros cmd ftl. unfold ftl, fatal, cmd. clear cmd ftl.
  assert (P : ∀ e t,
            docker_conda_list_json json_loads w (image a) (env a) = (inl e, t) →
            docker_conda_list_json json_loads w (image a) (env a) = (inl e, t) ∧
            ∀ text, fs w (pins a) = RegularFile text →
                    main json_loads path_str w a = (inl e, t)).
  { intros e t E. split; [done|]. intros text Hfs.
    rewrite (main_inspector_raises w a text e Hfs); by rewrite E. }
  split; [|split; [|split; [|split; [|split]]]].
  - intros Hrun. apply P. by apply inspector_spawn_failed.
  - intros rc Hrun. apply P. by apply inspector_undecodable with rc.
  - intros rc out Hrun Hrc. apply P. by apply inspector_exit_nonzero.
  - intros out Hrun Hd. apply P.
    by rewrite (inspector_exit_zero _ _ _ _ _ Hrun), Hd.
  - intros out data Hrun Hd Hl. apply P.
    rewrite (inspector_exit_zero _ _ _ _ _ Hrun), Hd.
    by rewrite (collect_installed_not_listing data Hl).
  - intros out data Hrun Hd Hl.
    destruct (collect_installed_listing data Hl) as [installed E].
    exists installed. by rewrite (inspector_exit_zero _ _ _ _ _ Hrun), Hd, E.
Qed.

End main_runs.

Lemma absent_pins_exit_2_no_container_witness :
  exit_status
    (main sample_loads plain_path_str sample_world
       (Args "img" default_env "no-such-file.yaml" [])) = 2%Z.
Proof.
  apply (absent_pins_exit_2_no_container sample_loads plain_path_str
           sample_world (Args "img" default_env "no-such-file.yaml" [])).
  reflexivity.
Defined.

Lemma exit_code_tells_missing_witness :
  fst (main sample_loads plain_path_str sample_world sample_args) = inr 1%Z.
Proof.
  destruct (exit_code_tells_missing sample_loads plain_path_str sample_world
              sample_args {[ "a" := PyStr "1.0"; "c-x" := PyStr "" ]})
    as (required & Hreq & _ & H1 & _); [reflexivity | | by vm_compute |].
  { apply list_elem_of_here. }
  apply H1. vm_compute in Hreq. inversion Hreq; subst. by vm_compute.
Defined.

(** C4, as the specification words it, fails twice.  When the container
    exits with 0 and a line of the entry point stands before the listing,
    the decoder raises and the exception is propagated, but the
    transcript is not printed: the script prints nothing at all.  And
    when the container exits with a status other than 0 and its output is
    not text, the exception of the decoding is raised before the return
    code is looked at, and again nothing is printed. *)
Lemma undecodable_transcript_not_printed :
  (run_process banner_world (docker_cmd "img" default_env)
   = Exited 0 sample_banner ∧
   sample_loads sample_banner = None ∧
   main sample_loads plain_path_str banner_world sample_args
   = (inl JSONDecodeError, [Exec (docker_cmd "img" default_env)]) ∧
   ¬ (∃ to,
        Print to sample_banner
        ∈ snd (docker_conda_list_json sample_loads banner_world
                 "img" default_env))) ∧
  (run_process garbled_world (docker_cmd "img" default_env)
   = ExitedUndecodable 125 ∧
   main sample_loads plain_path_str garbled_world sample_args
   = (inl UnicodeDecodeError, [Exec (docker_cmd "img" default_env)]) ∧
   ¬ (∃ to text,
        Print to text
        ∈ snd (docker_conda_list_json sample_loads garbled_world
                 "img" default_env))).
Proof.
  split.
  - split; [reflexivity|]. split; [reflexivity|]. split; [by vm_compute|].
    intros [to H]. vm_compute in H.
    apply elem_of_cons in H as [H|H]; [done | by apply elem_of_nil in H].
  - split; [reflexivity|]. split; [by vm_compute|].
    intros (to & text & H). vm_compute in H.
    apply elem_of_cons in H as [H|H]; [done | by apply elem_of_nil in H].
Qed.

Lemma inspector_failure_is_fatal_witness :
  main sample_loads plain_path_str failing_world sample_args
  = (inl (CalledProcessError 125 (docker_cmd "img" default_env)
            "docker: image not found"),
     [Exec (docker_cmd "img" default_env); Print Stderr error_line;
      Print Stderr "docker: image not found"]) ∧
  main sample_loads plain_path_str banner_world sample_args
  = (inl JSONDecodeError, [Exec (docker_cmd "img" default_env)]) ∧
  main sample_loads plain_path_str garbled_world sample_args
  = (inl UnicodeDecodeError, [Exec (docker_cmd "img" default_env)]) ∧
  main sample_loads plain_path_str
    (World sample_fs (λ _, SpawnFailed)) sample_args
  = (inl OSError, [Exec (docker_cmd "img" default_env)]) ∧
  main error_loads plain_path_str error_world sample_args
  = (inl AttributeError, [Exec (docker_cmd "img" default_env)]) ∧
  ∃ installed,
    docker_conda_list_json sample_loads sample_world "img" default_env
    = (inr installed, [Exec (docker_cmd "img" default_env)]).
Proof.
  split; [|split; [|split; [|split; [|split]]]].
  - destruct (inspector_failure_is_fatal sample_loads plain_path_str
                failing_world sample_args) as (_ & _ & H & _).
    destruct (H 125%Z "docker: image not found" eq_refl) as [_ Hm]; [done|].
    apply (Hm sample_manifest eq_refl).
  - destruct (inspector_failure_is_fatal sample_loads plain_path_str
                banner_world sample_args) as (_ & _ & _ & H & _).
    destruct (H sample_banner eq_refl eq_refl) as [_ Hm].
    apply (Hm sample_manifest eq_refl).
  - destruct (inspector_failure_is_fatal sample_loads plain_path_str
                garbled_world sample_args) as (_ & H & _).
    destruct (H 125%Z eq_refl) as [_ Hm].
    apply (Hm sample_manifest eq_refl).
  - destruct (inspector_failure_is_fatal sample_loads plain_path_str
                (World sample_fs (λ _, SpawnFailed)) sample_args) as (H & _).
    destruct (H eq_refl) as [_ Hm].
    apply (Hm sample_manifest eq_refl).
  - destruct (inspector_failure_is_fatal error_loads plain_path_str
                error_world sample_args) as (_ & _ & _ & _ & H & _).
    destruct (H error_object
                (PyDict {[ "error" := PyStr "no such environment" ]})
                eq_refl eq_refl) as [_ Hm]; [by vm_compute|].
    apply (Hm sample_manifest eq_refl).
  - destruct (inspector_failure_is_fatal sample_loads plain_path_str
                sample_world sample_args) as (_ & _ & _ & _ & _ & H).
    apply (H sample_listing (PyList sample_records) eq_refl eq_refl).
    by vm_compute.
Defined.

(** * Further properties of the script *)

(** ** The pin parser *)

Lemma str_app_cons c s t : String c s +:+ t = String c (s +:+ t).
Proof. reflexivity. Qed.

Lemma str_app_nil_l t : EmptyString +:+ t = t.
Proof. reflexivity. Qed.

(** X1.  The required set of a manifest made of two parts is the union of
    the required sets of the parts; so neither the order of the lines nor
    a repeated line changes what the parser returns. *)
Theorem parse_lines_union (l1 l2 : list string) :
  parse_lines (l1 ++ l2) = parse_lines l1 ∪ parse_lines l2 ∧
  parse_lines (l1 ++ l2) = parse_lines (l2 ++ l1) ∧
  parse_lines (l1 ++ l1) = parse_lines l1.
Proof.
  assert (U : ∀ a b, parse_lines (a ++ b) = parse_lines a ∪ parse_lines b).
  { intros a b. apply set_eq. intros p.
    rewrite elem_of_union, !elem_of_parse_lines. split.
    - intros (raw & [H|H]%elem_of_app & Hn); [left | right]; by exists raw.
    - intros [(raw & H & Hn)|(raw & H & Hn)]; exists raw;
        (split; [apply elem_of_app; (by left) || (by right) | done]). }
  split; [apply U|]. split.
  - rewrite !U. apply set_eq. intros p. rewrite !elem_of_union. tauto.
  - rewrite U. apply set_eq. intros p. rewrite elem_of_union. tauto.
Qed.

Lemma rstrip_cons_nonspace c s :
  PyStr.isspace c = false → PyStr.rstrip (String c s) = String c (PyStr.rstrip s).
Proof. intros E. simpl. rewrite E. by destruct (PyStr.rstrip s). Qed.

Lemma rstrip_app x z :
  PyStr.rstrip z ≠ EmptyString → PyStr.rstrip (x +:+ z) = x +:+ PyStr.rstrip z.
Proof.
  intros Hz. induction x as [|c x IH]; [done|].
  rewrite !str_app_cons. simpl. rewrite IH.
  destruct (x +:+ PyStr.rstrip z) eqn:E; [|done].
  destruct x; [|done]. by rewrite str_app_nil_l in E.
Qed.

Lemma split_head_app name rest :
  no_equals name = true →
  PyStr.split_head "=" (name +:+ String "=" rest) = name.
Proof.
  induction name as [|c name IH]; [done|].
  intros [Hc Hn]%andb_true_iff. rewrite str_app_cons. simpl.
  destruct (Ascii.eqb c "=") eqn:E; [done|]. by rewrite IH.
Qed.

Lemma split_head_none name :
  no_equals name = true → PyStr.split_head "=" name = name.
Proof.
  induction name as [|c name IH]; [done|].
  intros [Hc Hn]%andb_true_iff. simpl.
  destruct (Ascii.eqb c "=") eqn:E; [done|]. by rewrite IH.
Qed.

Lemma strip_fixed_head name : PyStr.strip name = name → head_nonspace name.
Proof.
  intros <-. apply rstrip_head_nonspace, lstrip_head_nonspace.
Qed.

Lemma strip_pin_line name rest :
  PyStr.strip name = name → name ≠ EmptyString →
  PyStr.strip (name +:+ String "=" rest)
  = name +:+ String "=" (PyStr.rstrip rest).
Proof.
  intros Hs Hne. unfold PyStr.strip.
  rewrite lstrip_fixed.
  - rewrite rstrip_app; by rewrite rstrip_cons_nonspace.
  - apply strip_fixed_head in Hs. by destruct name.
Qed.

(** X2.  On a line "name=version=build" or "name=version", nothing after
    the first '=' plays a role: for a name without white space around it,
    without '=' in it, not empty and not starting with '#', the line adds
    the normalized name to the required set, whatever follows the '=',
    exactly as the line that holds the name alone. *)
Theorem version_and_build_are_dropped (name rest : string) (req : gset string) :
  PyStr.strip name = name → name ≠ EmptyString →
  no_equals name = true → PyStr.startswith name "#" = false →
  parse_line req (name +:+ String "=" rest) = req ∪ {[ normalize name ]} ∧
  parse_line req name = req ∪ {[ normalize name ]}.
Proof.
  intros Hs Hne Heq Hh. unfold parse_line. split.
  - rewrite (strip_pin_line name rest Hs Hne).
    destruct (decide (name +:+ String "=" (PyStr.rstrip rest) = "")) as [E|_].
    { by destruct name. }
    assert (PyStr.startswith (name +:+ String "=" (PyStr.rstrip rest)) "#"
            = false) as ->.
    { by destruct name. }
    rewrite (split_head_app name _ Heq), Hs.
    by destruct (decide (name = "")).
  - rewrite Hs. destruct (decide (name = "")); [done|].
    rewrite Hh, (split_head_none name Heq), Hs.
    by destruct (decide (name = "")).
Qed.

Lemma version_and_build_are_dropped_witness :
  parse_line ∅ ("Scikit_Learn" +:+ String "=" "1.4.2=py311h_0  ")
  = {[ "scikit-learn" ]}.
Proof.
  destruct (version_and_build_are_dropped "Scikit_Learn" "1.4.2=py311h_0  " ∅)
    as [-> _]; [reflexivity | discriminate | reflexivity | reflexivity |].
  by vm_compute.
Defined.

Lemma normalize_empty_iff x : normalize x = EmptyString ↔ PyStr.strip x = EmptyString.
Proof.
  rewrite normalize_map_strip. split; [apply strmap_nil_inv | by intros ->].
Qed.

(** X3.  The required set never holds the empty name; so an ignore entry
    that is empty or made of white space only takes nothing away from the
    required set. *)
Theorem required_names_are_not_empty (lines : list string) :
  (EmptyString ∉ parse_lines lines) ∧
  ∀ x, PyStr.strip x = EmptyString →
       effective_required (parse_lines lines) (ignore_set [x])
       = parse_lines lines.
Proof.
  assert (H0 : EmptyString ∉ parse_lines lines).
  { intros H. apply elem_of_parse_lines in H as (raw & _ & _ & _ & Hl & E).
    symmetry in E. apply normalize_empty_iff in E.
    by rewrite strip_idemp in E. }
  split; [done|]. intros x Hx. apply set_eq. intros p.
  rewrite elem_of_effective_required, elem_of_ignore_set. split; [tauto|].
  intros Hp. split; [done|]. intros (y & Hy & <-).
  apply list_elem_of_singleton in Hy as ->.
  apply normalize_empty_iff in Hx. by rewrite Hx in Hp.
Qed.

Lemma required_names_are_not_empty_witness :
  effective_required (parse_lines ["a=1"; "b"]) (ignore_set ["   "])
  = parse_lines ["a=1"; "b"].
Proof.
  apply (required_names_are_not_empty ["a=1"; "b"]). reflexivity.
Defined.

Lemma in_chars_map f s c :
  c ∈ list_ascii_of_string (PyStr.map f s) →
  ∃ d, d ∈ list_ascii_of_string s ∧ c = f d.
Proof.
  induction s as [|e s IH]; simpl.
  - by intros H%elem_of_nil.
  - intros [->|H]%elem_of_cons.
    + exists e. split; [left | done].
    + destruct (IH H) as (d & Hd & ->). exists d. split; [by right | done].
Qed.

Lemma norm_char_shape d :
  norm_char d ≠ "_"%char ∧ PyStr.lower_char (norm_char d) = norm_char d.
Proof. each_char d; (split; [discriminate | reflexivity]). Qed.

(** X4.  A normalized name has no white space around it and holds neither
    an underscore nor a character that [lower] would change. *)
Theorem normalize_output_shape (x : string) :
  PyStr.strip (normalize x) = normalize x ∧
  PyStr.lower (normalize x) = normalize x ∧
  ∀ c, c ∈ list_ascii_of_string (normalize x) →
       c ≠ "_"%char ∧ PyStr.lower_char c = c.
Proof.
  split; [|split].
  - rewrite normalize_strip_map. apply strip_idemp.
  - rewrite normalize_map_strip. unfold PyStr.lower. rewrite strmap_map.
    apply strmap_ext. intros c. apply norm_char_shape.
  - intros c. rewrite normalize_map_strip.
    intros (d & _ & ->)%in_chars_map. apply norm_char_shape.
Qed.

(** *** Line endings *)

Lemma rev_app_append s acc t :
  String.rev_app s acc +:+ t = String.rev_app s (acc +:+ t).
Proof.
  revert acc. induction s as [|c s IH]; intros acc; simpl; [done|].
  by rewrite IH.
Qed.

Lemma rev_cons_append c cur l :
  String.rev (String c cur) +:+ l = String.rev cur +:+ String c l.
Proof. unfold String.rev. simpl. by rewrite !rev_app_append. Qed.

Lemma splitlines_go_LF cur l rest :
  no_linebreak l = true →
  PyStr.splitlines_go cur (l +:+ LF +:+ rest)
  = (String.rev cur +:+ l) :: PyStr.splitlines_go EmptyString rest.
Proof.
  revert cur. induction l as [|c l IH]; intros cur.
  - intros _. unfold String.rev. by rewrite rev_app_append.
  - intros [Hc Hl]%andb_true_iff. rewrite str_app_cons.
    cbn [PyStr.splitlines_go].
    destruct (PyStr.islinebreak c); [done|].
    by rewrite (IH _ Hl), rev_cons_append.
Qed.

Lemma splitlines_go_CRLF cur l rest :
  no_linebreak l = true →
  PyStr.splitlines_go cur (l +:+ CRLF +:+ rest)
  = (String.rev cur +:+ l) :: PyStr.splitlines_go EmptyString rest.
Proof.
  revert cur. induction l as [|c l IH]; intros cur.
  - intros _. unfold String.rev. by rewrite rev_app_append.
  - intros [Hc Hl]%andb_true_iff. rewrite str_app_cons.
    cbn [PyStr.splitlines_go].
    destruct (PyStr.islinebreak c); [done|].
    by rewrite (IH _ Hl), rev_cons_append.
Qed.

Lemma splitlines_terminated_LF lines :
  Forall (λ l, no_linebreak l = true) lines →
  PyStr.splitlines (terminated LF lines) = lines.
Proof.
  unfold PyStr.splitlines. induction 1 as [|l ls Hl _ IH]; [done|].
  cbn [terminated]. by rewrite (splitlines_go_LF _ _ _ Hl), IH.
Qed.

Lemma splitlines_terminated_CRLF lines :
  Forall (λ l, no_linebreak l = true) lines →
  PyStr.splitlines (terminated CRLF lines) = lines.
Proof.
  unfold PyStr.splitlines. induction 1 as [|l ls Hl _ IH]; [done|].
  cbn [terminated]. by rewrite (splitlines_go_CRLF _ _ _ Hl), IH.
Qed.

(** X5.  The parser reads a manifest whose lines end in LF and the same
    manifest with lines ending in CR LF alike: both give the required set
    of the lines, and no empty line is read after the last line break. *)
Theorem line_endings_do_not_matter
    (w_unix w_dos : world) (path : string) (lines : list string) :
  Forall (λ l, no_linebreak l = true) lines →
  fs w_unix path = RegularFile (terminated LF lines) →
  fs w_dos path = RegularFile (terminated CRLF lines) →
  PyStr.splitlines (terminated LF lines) = lines ∧
  PyStr.splitlines (terminated CRLF lines) = lines ∧
  parse_conda_export w_unix path = (inr (parse_lines lines), []) ∧
  parse_conda_export w_dos path = (inr (parse_lines lines), []).
Proof.
  intros Hl Hu Hd.
  pose proof (splitlines_terminated_LF lines Hl) as E1.
  pose proof (splitlines_terminated_CRLF lines Hl) as E2.
  split; [done|]. split; [done|].
  unfold parse_conda_export, read_text. rewrite Hu, Hd. simpl.
  by rewrite E1, E2.
Qed.

Lemma line_endings_do_not_matter_witness :
  parse_conda_export
    (World (λ _, RegularFile (terminated CRLF ["# pins"; "a=1"; ""; "b"]))
       (λ _, SpawnFailed)) default_pins
  = parse_conda_export
      (World (λ _, RegularFile (terminated LF ["# pins"; "a=1"; ""; "b"]))
         (λ _, SpawnFailed)) default_pins.
Proof.
  destruct (line_endings_do_not_matter
              (World (λ _, RegularFile (terminated LF ["# pins"; "a=1"; ""; "b"]))
                 (λ _, SpawnFailed))
              (World (λ _, RegularFile (terminated CRLF ["# pins"; "a=1"; ""; "b"]))
                 (λ _, SpawnFailed))
              default_pins ["# pins"; "a=1"; ""; "b"])
    as (_ & _ & -> & ->); [repeat constructor | reflexivity | reflexivity |].
  reflexivity.
Defined.

(** ** The image inspector *)

Lemma add_record_entry m rec m' :
  add_record m rec = inr m' →
  m' = match record_entry rec with
       | Some (k, v) => <[k := v]> m
       | None => m
       end.
Proof.
  destruct rec as [| | | | |l|d]; try discriminate.
  unfold add_record, record_entry. simpl.
  destruct (d !! "name") as [n|]; simpl; [|by inversion 1].
  destruct n as [|b|z|f|s|l|d']; simpl.
  - by inversion 1.
  - destruct b; simpl; [discriminate | by inversion 1].
  - destruct (z =? 0)%Z; simpl; [by inversion 1 | discriminate].
  - destruct f; simpl; (discriminate || by inversion 1).
  - destruct (decide (s = "")); simpl; by inversion 1.
  - destruct l; simpl; [by inversion 1 | discriminate].
  - destruct (decide (d' = ∅)); simpl; [by inversion 1 | discriminate].
Qed.

(** X6.  What the loop does with a record depends on its "name" alone:
    a name that is false as a condition (null, false, 0, 0.0, an empty
    string, list or object) makes the loop skip the record, a name that
    is true as a condition and not a string raises AttributeError, and so
    does a record that is not an object. *)
Theorem record_name_decides
    (m : gmap string pyval) (d : gmap string pyval) (n : pyval) :
  d !! "name" = Some n →
  (truthy n = false → add_record m (PyDict d) = inr m) ∧
  (truthy n = true → (∀ s, n ≠ PyStr s) →
   add_record m (PyDict d) = inl AttributeError) ∧
  (∀ s, n = PyStr s → s ≠ "" →
        add_record m (PyDict d)
        = inr (<[normalize s := default (PyStr "") (d !! "version")]> m)) ∧
  (∀ rec, (∀ d', rec ≠ PyDict d') → add_record m rec = inl AttributeError).
Proof.
  intros Hn. unfold add_record. simpl. rewrite Hn. simpl.
  split; [by intros ->|]. split; [|split].
  - intros -> Hs. simpl. destruct n; try done. exfalso. by apply (Hs s).
  - intros s -> Hs. simpl. by destruct (decide (s = "")).
  - intros rec Hrec. destruct rec as [| | | | | |d']; try done.
    exfalso. by apply (Hrec d').
Qed.

Lemma record_name_decides_witness :
  add_record ∅ (PyDict {[ "name" := PyInt 0 ]}) = inr ∅ ∧
  add_record ∅ (PyDict {[ "name" := PyInt 7 ]}) = inl AttributeError ∧
  add_record ∅ (PyDict {[ "name" := PyStr "Py_Yaml"; "version" := PyNone ]})
  = inr {[ "py-yaml" := PyNone ]}.
Proof.
  split; [|split].
  - assert (E : ({[ "name" := PyInt 0 ]} : gmap string pyval) !! "name"
                = Some (PyInt 0)) by (by vm_compute).
    destruct (record_name_decides ∅ _ _ E) as (H & _).
    apply H. reflexivity.
  - assert (E : ({[ "name" := PyInt 7 ]} : gmap string pyval) !! "name"
                = Some (PyInt 7)) by (by vm_compute).
    destruct (record_name_decides ∅ _ _ E) as (_ & H & _).
    apply H; [reflexivity | discriminate].
  - assert (E : ({[ "name" := PyStr "Py_Yaml"; "version" := PyNone ]}
                   : gmap string pyval) !! "name"
                = Some (PyStr "Py_Yaml")) by (by vm_compute).
    destruct (record_name_decides ∅ _ _ E) as (_ & _ & H & _).
    rewrite (H "Py_Yaml" eq_refl); [by vm_compute | discriminate].
Defined.

Lemma chars_nonempty s : s ≠ EmptyString → ∃ c l, chars s = PyStr c :: l.
Proof. destruct s as [|c s]; [done|]. intros _. by eexists _, _. Qed.

(** X7.  The decoded output need not be a list for the loop to run.  An
    empty object and an empty string give the empty map, like an empty
    list; an object or a string that is not empty raises AttributeError
    at its first key or character; null, a boolean and a number raise
    TypeError, since they cannot be iterated over. *)
Theorem decoded_value_shapes :
  collect_installed (PyList []) = inr ∅ ∧
  collect_installed (PyDict ∅) = inr ∅ ∧
  collect_installed (PyStr "") = inr ∅ ∧
  (∀ d, d ≠ ∅ → collect_installed (PyDict d) = inl AttributeError) ∧
  (∀ s, s ≠ "" → collect_installed (PyStr s) = inl AttributeError) ∧
  collect_installed PyNone = inl TypeError ∧
  (∀ b, collect_installed (PyBool b) = inl TypeError) ∧
  (∀ z, collect_installed (PyInt z) = inl TypeError) ∧
  (∀ f, collect_installed (PyFloat f) = inl TypeError).
Proof.
  repeat split; try done.
  - intros d Hd. unfold collect_installed. simpl.
    destruct (map_to_list d) as [|[k v] l] eqn:E.
    + by apply map_to_list_empty_iff in E.
    + done.
  - intros s Hs. unfold collect_installed. simpl.
    by destruct (chars_nonempty s Hs) as (c & l & ->).
Qed.

Lemma decoded_value_shapes_witness :
  collect_installed (PyDict {[ "error" := PyStr "no such environment" ]})
  = inl AttributeError.
Proof.
  destruct decoded_value_shapes as (_ & _ & _ & H & _).
  apply H. intros E. apply (f_equal (λ m, m !! "error")) in E.
  by rewrite lookup_singleton_eq, lookup_empty in E.
Defined.

Lemma add_records_entries recs m m' k :
  add_records m recs = inr m' →
  (is_Some (m' !! k) ↔
   is_Some (m !! k) ∨ ∃ rec v, rec ∈ recs ∧ record_entry rec = Some (k, v)).
Proof.
  revert m. induction recs as [|rec recs IH]; intros m; simpl.
  - intros [= ->]. split; [by left|].
    intros [H|(rec & v & H & _)]; [done | by apply elem_of_nil in H].
  - destruct (add_record m rec) as [e|m1] eqn:E; [done|].
    intros H. rewrite (IH m1 H). apply add_record_entry in E.
    split.
    + intros [H1|(r & v & Hr & Hv)].
      * destruct (record_entry rec) as [[k' v']|] eqn:Er; subst m1; [|by left].
        destruct (decide (k' = k)) as [->|Hk].
        -- right. exists rec, v'. split; [left | done].
        -- rewrite lookup_insert_ne in H1 by done. by left.
      * right. exists r, v. split; [by right | done].
    + intros [H1|(r & v & Hr & Hv)].
      * left. destruct (record_entry rec) as [[k' v']|]; subst m1; [|done].
        destruct (decide (k' = k)) as [->|Hk].
        -- rewrite lookup_insert_eq. by eexists.
        -- by rewrite lookup_insert_ne.
      * apply elem_of_cons in Hr as [->|Hr].
        -- left. rewrite Hv in E. subst m1. rewrite lookup_insert_eq.
           by eexists.
        -- right. by exists r, v.
Qed.

Lemma add_records_keeps recs m m' k :
  add_records m recs = inr m' →
  (∀ rec v, rec ∈ recs → record_entry rec ≠ Some (k, v)) →
  m' !! k = m !! k.
Proof.
  revert m. induction recs as [|rec recs IH]; intros m; simpl.
  - by intros [= ->].
  - destruct (add_record m rec) as [e|m1] eqn:E; [done|].
    intros H Hno. rewrite (IH m1 H).
    + apply add_record_entry in E.
      destruct (record_entry rec) as [[k' v']|] eqn:Er; subst m1; [|done].
      apply lookup_insert_ne. intros ->.
      apply (Hno rec v'); [left | done].
    + intros r v Hr. apply Hno. by right.
Qed.

Section inspector_more.

Variable json_loads : string → option pyval.

(** X8.  When the inspector returns, the keys of the installed map are
    exactly the normalized names of the records of the listing that have
    a non-empty name: no record is lost and no key is invented. *)
Theorem installed_keys_are_the_listed_names
    (w : world) (image env out : string) (recs : list pyval)
    (installed : gmap string pyval) :
  run_process w (docker_cmd image env) = Exited 0 out →
  json_loads out = Some (PyList recs) →
  fst (docker_conda_list_json json_loads w image env) = inr installed →
  ∀ k, k ∈ dom installed ↔
       ∃ d n, PyDict d ∈ recs ∧ d !! "name" = Some (PyStr n) ∧
              n ≠ "" ∧ normalize n = k.
Proof.
  intros Hrun Hdata Hres k.
  rewrite (inspector_exit_zero _ _ _ _ _ Hrun), Hdata in Hres.
  unfold collect_installed in Hres. simpl in Hres.
  rewrite elem_of_dom, (add_records_entries recs ∅ installed k Hres).
  rewrite lookup_empty. split.
  - intros [[? [=]]|(rec & v & Hr & Hv)].
    destruct rec as [| | | | |l|d]; try discriminate. simpl in Hv.
    destruct (d !! "name") as [[| | | |n| |]|] eqn:Hn; try discriminate.
    destruct (decide (n = "")); [discriminate|].
    inversion Hv; subst. by exists d, n.
  - intros (d & n & Hd & Hn & Hne & <-). right.
    exists (PyDict d), (default (PyStr "") (d !! "version")).
    split; [done|]. simpl. rewrite Hn. by destruct (decide (n = "")).
Qed.

(** X9.  When several records of a listing have the same normalized
    name, the last one wins: the installed map holds, under that name,
    the version of the record after which no record has the name. *)
Theorem last_record_of_a_name_wins
    (w : world) (image env out : string) (l1 l2 : list pyval)
    (rec : pyval) (k : string) (v : pyval) (installed : gmap string pyval) :
  run_process w (docker_cmd image env) = Exited 0 out →
  json_loads out = Some (PyList (l1 ++ rec :: l2)) →
  fst (docker_conda_list_json json_loads w image env) = inr installed →
  record_entry rec = Some (k, v) →
  (∀ r v', r ∈ l2 → record_entry r ≠ Some (k, v')) →
  installed !! k = Some v.
Proof.
  intros Hrun Hdata Hres Hrec Hlast.
  rewrite (inspector_exit_zero _ _ _ _ _ Hrun), Hdata in Hres.
  unfold collect_installed in Hres. simpl in Hres.
  rewrite add_records_app in Hres.
  destruct (add_records ∅ l1) as [e|m1]; [done|]. simpl in Hres.
  destruct (add_record m1 rec) as [e|m2] eqn:E; [done|].
  rewrite (add_records_keeps l2 m2 installed k Hres Hlast).
  apply add_record_entry in E. rewrite Hrec in E. subst m2.
  apply lookup_insert_eq.
Qed.

End inspector_more.

Lemma installed_keys_are_the_listed_names_witness :
  ∃ d n, PyDict d ∈ sample_records ∧ d !! "name" = Some (PyStr n) ∧
         n ≠ "" ∧ normalize n = "c-x".
Proof.
  apply (installed_keys_are_the_listed_names sample_loads sample_world
           "img" "notebook" sample_listing sample_records
           {[ "a" := PyStr "1.0"; "c-x" := PyStr "" ]});
    by vm_compute.
Defined.

Lemma last_record_of_a_name_wins_witness :
  ({[ "foo-bar" := PyStr "2" ]} : gmap string pyval) !! "foo-bar"
  = Some (PyStr "2").
Proof.
  apply (last_record_of_a_name_wins twice_loads twice_world "img" "notebook"
           twice_listing (take 1 twice_records) []
           (PyDict {[ "name" := PyStr "foo-bar"; "version" := PyStr "2" ]}));
    try by vm_compute.
  intros r v' H. by apply elem_of_nil in H.
Defined.

(** ** Whole runs *)

Lemma execs_app t1 t2 : execs (t1 ++ t2) = execs t1 ++ execs t2.
Proof.
  induction t1 as [|[to text|cmd] t1 IH]; simpl; [done | done | by rewrite IH].
Qed.

Lemma execs_bullets l : execs (bullet <$> l) = [].
Proof. by induction l. Qed.

Lemma elem_of_missing_nil (required : gset string) installed :
  missing_list required installed = [] ↔
  ∀ p, p ∈ required → is_Some (installed !! p).
Proof.
  split.
  - intros E p Hp. destruct (installed !! p) as [v|] eqn:Hv; [by eexists|].
    assert (H : p ∈ missing_list required installed)
      by by apply elem_of_missing_list.
    rewrite E in H. by apply elem_of_nil in H.
  - intros H. destruct (missing_list required installed) as [|p l] eqn:E; [done|].
    assert (Hp : p ∈ missing_list required installed) by (rewrite E; left).
    apply elem_of_missing_list in Hp as [Hp Hn].
    destruct (H p Hp) as [v Hv]. congruence.
Qed.

Section runs.

Variable json_loads : string → option pyval.
Variable path_str : string → string.

Lemma inspector_execs w image env :
  execs (snd (docker_conda_list_json json_loads w image env))
  = [docker_cmd image env].
Proof.
  destruct (run_process w (docker_cmd image env)) as [rc out|rc|] eqn:Hrun.
  - destruct (decide (rc = 0%Z)) as [->|Hrc].
    + by rewrite (inspector_exit_zero _ _ _ _ _ Hrun).
    + by rewrite (inspector_exit_nonzero _ _ _ _ _ _ Hrun Hrc).
  - by rewrite (inspector_undecodable _ _ _ _ _ Hrun).
  - by rewrite (inspector_spawn_failed _ _ _ _ Hrun).
Qed.

(** Every run of [main] is of one of four kinds. *)
Lemma main_cases w a :
  (fs w (pins a) = NoEntry ∧
   main json_loads path_str w a
   = (inr 2%Z,
      [Print Stderr ("ERROR: pins file not found: " +:+ path_str (pins a))])) ∨
  (fs w (pins a) = Unreadable ∧
   main json_loads path_str w a = (inl OSError, [])) ∨
  (∃ text e,
     fs w (pins a) = RegularFile text ∧
     fst (docker_conda_list_json json_loads w (image a) (env a)) = inl e ∧
     main json_loads path_str w a
     = (inl e, snd (docker_conda_list_json json_loads w (image a) (env a)))) ∨
  (∃ text installed,
     fs w (pins a) = RegularFile text ∧
     fst (docker_conda_list_json json_loads w (image a) (env a))
     = inr installed ∧
     let required :=
       effective_required (parse_lines (PyStr.splitlines text))
         (ignore_set (ignore a)) in
     let missing := missing_list required installed in
     main json_loads path_str w a
     = (inr (match missing with [] => 0%Z | _ => 1%Z end),
        Exec (docker_cmd (image a) (env a))
        :: summary path_str a required installed
        ++ match missing with
           | [] => [Print Stdout ok_line]
           | _ => Print Stdout missing_line :: (bullet <$> missing)
                  ++ [Print Stdout ""]
           end)).
Proof.
  destruct (fs w (pins a)) as [|text|] eqn:Hfs.
  - left. split; [done|]. apply main_absent. unfold path_exists. by rewrite Hfs.
  - right; right.
    destruct (fst (docker_conda_list_json json_loads w (image a) (env a)))
      as [e|installed] eqn:Hi.
    + left. exists text, e. split; [done|]. split; [done|].
      by apply main_inspector_raises with text.
    + right. exists text, installed. split; [done|]. split; [done|].
      by apply main_report.
  - right; left. split; [done|]. by apply main_unreadable.
Qed.

(** X10.  [main] returns 2 when the pins path does not exist, and in no
    other run. *)
Theorem returns_2_iff_pins_absent (w : world) (a : args) :
  fst (main json_loads path_str w a) = inr 2%Z ↔
  path_exists w (pins a) = false.
Proof.
  unfold path_exists.
  destruct (main_cases w a)
    as [[Hfs ->]|[[Hfs ->]|[(text & e & Hfs & _ & ->)
                           |(text & installed & Hfs & _ & ->)]]];
    rewrite Hfs; cbn [fst]; split; try done.
  by destruct (missing_list _ _).
Qed.

(** X11.  A run starts the container when the pins path holds a readable
    file, and then once, with the command
    docker run --rm <image> conda list -n <env> --json; it starts no
    process when the path is absent or cannot be read, and in the latter
    case [main] raises having printed nothing. *)
Theorem container_started_once_iff_pins_read (w : world) (a : args) :
  execs (snd (main json_loads path_str w a))
  = match fs w (pins a) with
    | RegularFile _ =>
        [["docker"; "run"; "--rm"; image a; "conda"; "list"; "-n"; env a;
          "--json"]]
    | _ => []
    end ∧
  (fs w (pins a) = Unreadable →
   main json_loads path_str w a = (inl OSError, [])).
Proof.
  split.
  - destruct (main_cases w a)
      as [[Hfs ->]|[[Hfs ->]|[(text & e & Hfs & _ & ->)
                             |(text & installed & Hfs & _ & ->)]]];
      rewrite Hfs; cbn [snd]; try done.
    + apply inspector_execs.
    + cbn [execs]. rewrite execs_app.
      destruct (missing_list _ _); [done|].
      cbn [execs summary app]. by rewrite execs_app, execs_bullets.
  - apply main_unreadable.
Qed.

Lemma not_in_bullets_or_summary to text a required installed missing :
  Print to text
  ∈ summary path_str a required installed
    ++ match missing with
       | [] => [Print Stdout ok_line]
       | _ => Print Stdout missing_line :: (bullet <$> missing)
              ++ [Print Stdout ""]
       end →
  to = Stdout.
Proof.
  intros [H|H]%elem_of_app.
  - unfold summary in H.
    repeat (apply elem_of_cons in H as [[= -> _]|H]; [done|]).
    by apply elem_of_nil in H.
  - destruct missing as [|m l].
    + apply list_elem_of_singleton in H. by inversion H.
    + apply elem_of_cons in H as [[= -> _]|H]; [done|].
      apply elem_of_app in H as [H|H].
      * apply list_elem_of_fmap in H as (x & [= -> _] & _). done.
      * apply list_elem_of_singleton in H. by inversion H.
Qed.

(** X12.  The two streams tell the outcomes apart.  Something is printed
    to the standard output only in a run where the inspection succeeded,
    and such a run returns 0 or 1; something is printed to the standard
    error only in a run that returns 2 or raises. *)
Theorem streams_tell_outcomes_apart (w : world) (a : args) :
  (∀ text, Print Stdout text ∈ snd (main json_loads path_str w a) →
           (∃ installed,
              fst (docker_conda_list_json json_loads w (image a) (env a))
              = inr installed) ∧
           (fst (main json_loads path_str w a) = inr 0%Z ∨
            fst (main json_loads path_str w a) = inr 1%Z)) ∧
  (∀ text, Print Stderr text ∈ snd (main json_loads path_str w a) →
           fst (main json_loads path_str w a) = inr 2%Z ∨
           ∃ e, fst (main json_loads path_str w a) = inl e).
Proof.
  destruct (main_cases w a)
    as [[Hfs ->]|[[Hfs ->]|[(text & e & Hfs & He & ->)
                           |(text & installed & Hfs & Hi & ->)]]];
    cbn [fst snd].
  - split; intros t H; [|by left].
    apply list_elem_of_singleton in H. by inversion H.
  - split; intros t H; by apply elem_of_nil in H.
  - split; intros t H; [|right; by exists e].
    destruct (inspector_trace json_loads w (image a) (env a)) as (t' & E & Hno).
    rewrite E in H. apply elem_of_cons in H as [H|H]; [done|].
    by destruct (Hno t).
  - split; intros t H.
    + split; [by exists installed|]. destruct (missing_list _ _); auto.
    + apply elem_of_cons in H as [H|H]; [done|].
      by apply not_in_bullets_or_summary in H.
Qed.

(** X13.  In a run where the manifest is read and the inspection
    succeeds, [main] returns 0 exactly when every package that a line of
    the manifest names is ignored or is a key of the installed map. *)
Theorem returns_0_iff_every_pin_ignored_or_installed
    (w : world) (a : args) (text : string) (installed : gmap string pyval) :
  fs w (pins a) = RegularFile text →
  fst (docker_conda_list_json json_loads w (image a) (env a)) = inr installed →
  fst (main json_loads path_str w a) = inr 0%Z ↔
  ∀ raw p, raw ∈ PyStr.splitlines text → names_package raw p →
           (∃ x, x ∈ ignore a ∧ normalize x = p) ∨ is_Some (installed !! p).
Proof.
  intros Hfs Hi. rewrite (main_report json_loads path_str w a text installed Hfs Hi).
  cbn [fst].
  transitivity (missing_list
                  (effective_required (parse_lines (PyStr.splitlines text))
                     (ignore_set (ignore a))) installed = []).
  { destruct (missing_list _ _); split; (done || discriminate). }
  rewrite elem_of_missing_nil. split.
  - intros H raw p Hraw Hn.
    destruct (decide (p ∈ ignore_set (ignore a))) as [Hig|Hig].
    + left. by apply elem_of_ignore_set.
    + right. apply H. apply elem_of_effective_required. split; [|done].
      apply elem_of_parse_lines. by exists raw.
  - intros H p [Hp Hig]%elem_of_effective_required.
    apply elem_of_parse_lines in Hp as (raw & Hraw & Hn).
    destruct (H raw p Hraw Hn) as [Hx|Hs]; [|done].
    by apply elem_of_ignore_set in Hx.
Qed.

End runs.

(** X14.  The names that a run reports as missing can be given back as
    ignore entries: with them added to the ignore list, nothing is
    missing any more. *)
Theorem ignoring_the_missing_leaves_none
    (lines ign : list string) (installed : gmap string pyval) :
  let required := parse_lines lines in
  let missing :=
    missing_list (effective_required required (ignore_set ign)) installed in
  missing_list (effective_required required (ignore_set (ign ++ missing)))
    installed = [].
Proof.
  intros required missing. apply elem_of_missing_nil.
  intros p [Hp Hig]%elem_of_effective_required.
  destruct (installed !! p) as [v|] eqn:Hv; [by eexists|].
  exfalso. apply Hig. apply elem_of_ignore_set. exists p. split.
  - apply elem_of_app. right. apply elem_of_missing_list. split; [|done].
    apply elem_of_effective_required. split; [done|].
    intros (x & Hx & E)%elem_of_ignore_set. apply Hig.
    apply elem_of_ignore_set. exists x. split; [|done].
    apply elem_of_app. by left.
  - by apply parse_lines_normalized with lines.
Qed.

Lemma returns_0_iff_every_pin_ignored_or_installed_witness :
  fst (main sample_loads plain_path_str sample_world
         (Args "img" default_env default_pins ["B"; "C"])) = inr 0%Z.
Proof.
  apply (returns_0_iff_every_pin_ignored_or_installed sample_loads
           plain_path_str sample_world
           (Args "img" default_env default_pins ["B"; "C"]) sample_manifest
           {[ "a" := PyStr "1.0"; "c-x" := PyStr "" ]});
    [reflexivity | by vm_compute |].
  intros raw p Hraw Hn.
  assert (Hp : p ∈ parse_lines (PyStr.splitlines sample_manifest)).
  { apply elem_of_parse_lines. by exists raw. }
  vm_compute in Hp.
  change (p ∈ ({[ "a"; "b"; "c" ]} : gset string)) in Hp.
  rewrite !elem_of_union, !elem_of_singleton in Hp.
  destruct Hp as [[->| ->]| ->].
  - right. exists (PyStr "1.0"). by vm_compute.
  - left. exists "B". split; [left | reflexivity].
  - left. exists "C". split; [right; left | reflexivity].
Defined.

Lemma normalize_output_shape_witness :
  "f"%char ≠ "_"%char ∧ PyStr.lower_char "f" = "f"%char.
Proof.
  apply (normalize_output_shape " Foo_Bar "). by vm_compute; left.
Defined.

Lemma container_started_once_iff_pins_read_witness :
  main sample_loads plain_path_str (World (λ _, Unreadable) (λ _, SpawnFailed))
    sample_args = (inl OSError, []).
Proof.
  apply (container_started_once_iff_pins_read sample_loads plain_path_str
           (World (λ _, Unreadable) (λ _, SpawnFailed)) sample_args).
  reflexivity.
Defined.

Lemma streams_tell_outcomes_apart_witness :
  (fst (main sample_loads plain_path_str sample_world sample_args) = inr 0%Z ∨
   fst (main sample_loads plain_path_str sample_world sample_args) = inr 1%Z) ∧
  (fst (main sample_loads plain_path_str failing_world sample_args) = inr 2%Z ∨
   ∃ e, fst (main sample_loads plain_path_str failing_world sample_args)
        = inl e).
Proof.
  split.
  - destruct (streams_tell_outcomes_apart sample_loads plain_path_str
                sample_world sample_args) as [H _].
    apply (H "Image: img"). vm_compute. right. left.
  - destruct (streams_tell_outcomes_apart sample_loads plain_path_str
                failing_world sample_args) as [_ H].
    apply (H error_line). vm_compute. right. left.
Defined.
